(** * go-aria2: the aria2c supervisor, its JSON-RPC client and the polling loop

    A shallow embedding of [aria2/aria2.go] (package [aria2]).  Everything the
    Go code obtains from outside the program is an explicit input here: the
    ports other programs hold, the outcome of spawning the subprocess, the
    order in which [select] cases fire, the wall clock and the answer of each
    HTTP exchange.  What the program does to the outside (probing a port,
    spawning or killing a process, posting a request) is recorded in a
    [World] value that is threaded through the calls. *)

From Stdlib Require Import ZArith List String Ascii Bool Lia.
From Stdlib Require Import DecimalString DecimalZ.
Import ListNotations.

Local Open Scope Z_scope.

(** ** Go values the package relies on *)

Module Go.

(** [int] on the 64-bit targets the binaries are shipped for. *)
Definition minInt : Z := - 2 ^ 63.
Definition maxInt : Z := 2 ^ 63 - 1.

Definition int_range (z : Z) : Prop := minInt <= z <= maxInt.

(** Two's complement wrap-around of an arithmetic result. *)
Definition wrap (z : Z) : Z := (z - minInt) mod 2 ^ 64 + minInt.

Definition add (x y : Z) : Z := wrap (x + y).

(** [strconv.Itoa], [strconv.FormatInt(_, 10)] and the verb [%d]. *)
Definition Itoa (z : Z) : string := NilZero.string_of_int (Z.to_int z).

(** An [error] value.  [fmt.Errorf] without [%w] yields a plain message,
    with [%w] it keeps the wrapped error; [Foreign] stands for an error
    produced by a library (net, os, net/http, encoding/json). *)
Inductive error : Type :=
| Foreign (msg : string)
| Errorf (msg : string)
| Wrapf (prefix : string) (inner : error).

(** The text [err.Error()] returns. *)
Fixpoint Error (e : error) : string :=
  match e with
  | Foreign msg => msg
  | Errorf msg => msg
  | Wrapf prefix inner => (prefix ++ Error inner)%string
  end.

(** [strings.Contains(s, sub)]. *)
Fixpoint Contains (s sub : string) : bool :=
  if String.prefix sub s then true
  else match s with
       | EmptyString => false
       | String _ rest => Contains rest sub
       end.

End Go.

Import Go.

(** ** The outside world *)

Definition pid := nat.
Definition ctxid := nat.

(** A JSON-RPC parameter as the package builds them ([[]interface{}]):
    a string, an array of strings, an object of string options.  The field is
    open to any Go value, so a caller of [Call] may also pass one that
    [json.Marshal] rejects (a channel, a function). *)
Inductive param : Type :=
| PString (s : string)
| PStrings (l : list string)
| POptions (kv : list (string * string))
| PUnsupported.

Record jsonRPCRequest : Type := mkRequest {
  req_JSONRPC : string;
  req_Method : string;
  req_Params : list param;
  req_ID : string
}.

Record World : Type := mkWorld {
  busy : list Z;                       (* TCP ports held by other sockets *)
  probes : list Z;                     (* ports net.Listen was tried on, oldest first *)
  next_ctx : ctxid;                    (* contexts created so far *)
  cancelled : list ctxid;              (* contexts whose cancel func was called *)
  next_pid : pid;                      (* processes spawned so far *)
  live : list pid;                     (* subprocesses that are running *)
  spawned : list (string * list string); (* launches: executable and arguments *)
  requests : list (string * jsonRPCRequest) (* HTTP POSTs: URL and body *)
}.

Definition world0 (busy_ports : list Z) : World :=
  mkWorld busy_ports [] 0%nat [] 0%nat [] [] [].

Definition mem_Z (x : Z) (l : list Z) : bool := existsb (Z.eqb x) l.
Definition mem_nat (x : nat) (l : list nat) : bool := existsb (Nat.eqb x) l.

(** [net.Listen("tcp", ":port")] succeeds on a valid port number nobody holds
    (port 0 asks the system for any free port). *)
Definition Listen_ok (w : World) (port : Z) : bool :=
  (0 <=? port) && (port <=? 65535) && negb (mem_Z port (busy w)).

Definition log_probe (w : World) (port : Z) : World :=
  mkWorld (busy w) (probes w ++ [port]) (next_ctx w) (cancelled w)
          (next_pid w) (live w) (spawned w) (requests w).

(** ** findAvailablePort

    The Go function recurses without a bound; [fuel] bounds the recursion
    depth here and [None] means the bound was hit.  The listener is closed
    before returning, so the set of held ports is the same afterwards. *)
Fixpoint findAvailablePort (fuel : nat) (w : World) (port : Z) : option (Z * World) :=
  match fuel with
  | O => None
  | S fuel' =>
      let w1 := log_probe w port in
      if Listen_ok w port
      then Some (port, w1)
      else findAvailablePort fuel' w1 (Go.add port 1)
  end.

(** ** Data model of aria2.go *)

Record File : Type := mkFile { Path : string }.

Record DownloadStatus : Type := mkStatus {
  GID : string;
  Status : string;            (* active, waiting, paused, error, complete, removed *)
  TotalLength : string;
  CompletedLength : string;
  DownloadSpeed : string;
  PieceLength : string;
  NumPieces : string;
  Connections : string;
  ErrorCode : string;
  ErrorMessage : string;
  Files : list File
}.

(** [type DownloadCallback func(status *DownloadStatus)]: the callback gets a
    pointer to the status the loop goes on to inspect, so it hands back the
    status as it left it, unless it panics. *)
Inductive callbackResult : Type :=
| CbReturn (st : DownloadStatus)
| CbPanic (v : string).

Definition DownloadCallback : Type := DownloadStatus -> callbackResult.

(** [exec.Cmd] as far as the package touches it. *)
Record Cmd : Type := mkCmd {
  cmd_Path : string;
  cmd_Args : list string;
  cmd_ctx : ctxid;            (* the context given to exec.CommandContext *)
  HideWindow : bool;
  Process : option pid        (* nil until cmd.Start has succeeded *)
}.

(** [type Aria2 struct].  The mutex [mu] has no field here: [IsRunning],
    [Start] and [Stop] hold it from their first statement to their return, so
    each of them is one atomic transition of the supervisor. *)
Record Aria2 : Type := mkAria2 {
  port : Z;
  running : bool;
  cmd : option Cmd;
  ctx : ctxid;
  cancel : ctxid;             (* the context the stored cancel func would cancel *)
  httpClient_Timeout : Z      (* seconds *)
}.

Definition set_running (a : Aria2) (b : bool) : Aria2 :=
  mkAria2 (port a) b (cmd a) (ctx a) (cancel a) (httpClient_Timeout a).

Definition set_cmd (a : Aria2) (c : option Cmd) : Aria2 :=
  mkAria2 (port a) (running a) c (ctx a) (cancel a) (httpClient_Timeout a).

Definition set_ctx (a : Aria2) (c : ctxid) : Aria2 :=
  mkAria2 (port a) (running a) (cmd a) c c (httpClient_Timeout a).

(** *** Contexts and processes *)

(** [context.WithCancel(context.Background())]: a context nobody has
    cancelled yet. *)
Definition WithCancel (w : World) : ctxid * World :=
  (next_ctx w,
   mkWorld (busy w) (probes w) (S (next_ctx w)) (cancelled w)
           (next_pid w) (live w) (spawned w) (requests w)).

(** Whether [<-c.Done()] is ready. *)
Definition ctx_done (w : World) (c : ctxid) : bool := mem_nat c (cancelled w).

(** A successful [cmd.Start()]. *)
Definition spawn (w : World) (path : string) (args : list string) : pid * World :=
  (next_pid w,
   mkWorld (busy w) (probes w) (next_ctx w) (cancelled w)
           (S (next_pid w)) (next_pid w :: live w)
           (spawned w ++ [(path, args)]) (requests w)).

Definition is_live (w : World) (p : pid) : bool := mem_nat p (live w).

(** The process is gone (killed, crashed or finished). *)
Definition end_process (w : World) (p : pid) : World :=
  mkWorld (busy w) (probes w) (next_ctx w) (cancelled w)
          (next_pid w) (filter (fun q => negb (Nat.eqb p q)) (live w))
          (spawned w) (requests w).

(** [Process.Kill()]: ends a running process unless the system refuses
    ([fault]); on a process that has already finished it reports an error. *)
Definition Kill (w : World) (p : pid) (fault : option error) : option error * World :=
  if is_live w p then
    match fault with
    | Some e => (Some e, w)
    | None => (None, end_process w p)
    end
  else (Some (Foreign "os: process already finished"), w).

Definition log_request (w : World) (url : string) (r : jsonRPCRequest) : World :=
  mkWorld (busy w) (probes w) (next_ctx w) (cancelled w)
          (next_pid w) (live w) (spawned w) (requests w ++ [(url, r)]).

(** ** The supervisor *)

(** [newDaemon]: the context is created first, then the struct literal
    probes for a port starting at 6800. *)
Definition newDaemon (fuel : nat) (w : World) : option (Aria2 * World) :=
  let '(c, w1) := WithCancel w in
  match findAvailablePort fuel w1 6800 with
  | None => None
  | Some (p, w2) => Some (mkAria2 p false None c c 10, w2)
  end.

Definition IsRunning (a : Aria2) : bool := running a.

Definition buildArgs (a : Aria2) : list string :=
  [ ("--rpc-listen-port=" ++ Itoa (port a))%string;
    "--disk-cache=64M"%string;
    "--always-resume=false"%string;
    "--max-resume-failure-tries=0"%string;
    "--enable-rpc=true"%string;
    "--rpc-listen-all=true"%string;
    "--continue=true"%string;
    "--max-connection-per-server=16"%string;
    "--min-split-size=1M"%string;
    "--split=64"%string;
    "--optimize-concurrent-downloads=true"%string;
    "--log-level=error"%string;
    "--http-accept-gzip=true"%string;
    "--content-disposition-default-utf8=true"%string;
    "--check-certificate=false"%string ].

(** The [select] of [waitForRPC] up to the moment the ten-second timer
    fires: a tick of the 100 ms ticker with the outcome of the dial, or the
    runtime trying the [ctx.Done()] case. *)
Inductive waitEvent : Type :=
| WTick (dial_ok : bool)
| WDone.

Definition errTimeout : error := Errorf "等待RPC服务超时".
Definition errCancelled : error := Errorf "ctx上下文已取消".

(** [waitForRPC]: [evs] are the cases that fire before the timeout does, so
    an exhausted list is the timeout case.  The [ctx.Done()] case can only be
    taken on a cancelled context; otherwise the loop keeps waiting. *)
Fixpoint waitForRPC (a : Aria2) (w : World) (evs : list waitEvent) : option error :=
  match evs with
  | [] => Some errTimeout
  | WTick true :: _ => None
  | WTick false :: rest => waitForRPC a w rest
  | WDone :: rest =>
      if ctx_done w (ctx a) then Some errCancelled else waitForRPC a w rest
  end.

(** What one run of [Start] meets outside the program.  A subprocess that
    was launched is taken to be still there when [Start] returns: the code
    itself checks nothing of it but a dial of the port. *)
Record StartEnv : Type := mkStartEnv {
  extract : string + error;     (* ExtractBinary() *)
  launch : option error;        (* cmd.Start(): nil or the error *)
  rpc_wait : list waitEvent
}.

Definition Start (a : Aria2) (w : World) (env : StartEnv)
  : option error * Aria2 * World :=
  if running a then (Some (Errorf "aria2c已经运行"), a, w)
  else
    match extract env with
    | inr err => (Some err, a, w)
    | inl binaryPath =>
        let args := buildArgs a in
        let '(c, w1) := WithCancel w in
        let a1 := set_ctx a c in
        let c0 := mkCmd binaryPath args (ctx a1) true None in
        let a2 := set_cmd a1 (Some c0) in
        match launch env with
        | Some err =>
            (Some (Errorf ("aria2c 进程启动失败: " ++ Error err)), a2, w1)
        | None =>
            let '(p, w2) := spawn w1 binaryPath args in
            let a3 := set_cmd a2 (Some (mkCmd binaryPath args (ctx a1) true (Some p))) in
            match waitForRPC a3 w2 (rpc_wait env) with
            | Some err => (Some (Wrapf "RPC service failed to start: " err), a3, w2)
            | None => (None, set_running a3 true, w2)   (* and: go a.monitor() *)
            end
        end
    end.

(** [Stop]; [fault] is what the system answers if the kill is refused. *)
Definition Stop (a : Aria2) (w : World) (fault : option error)
  : option error * Aria2 * World :=
  let a1 := set_running a false in
  match cmd a1 with
  | Some c =>
      match Process c with
      | Some p =>
          match Kill w p fault with
          | (Some err, w1) => (Some (Wrapf "failed to kill aria2c process: " err), a1, w1)
          | (None, w1) => (None, a1, w1)
          end
      | None => (None, a1, w)
      end
  | None => (None, a1, w)
  end.

(** [monitor], the goroutine [Start] leaves behind: [cmd.Wait()] returns once
    the subprocess is gone, then [Stop] runs and its error is dropped. *)
Definition monitor (a : Aria2) (w : World) (fault : option error) : Aria2 * World :=
  match cmd a with
  | Some c =>
      let w1 := match Process c with Some p => end_process w p | None => w end in
      let '(_, a1, w2) := Stop a w1 fault in (a1, w2)
  | None => (a, w)
  end.

(** ** The control client *)

Record jsonRPCError : Type := mkRPCError {
  Code : Z;
  Message : string
}.

(** [json.RawMessage], by what the decoders of this package make of it. *)
Inductive RawMessage : Type :=
| RawAbsent                        (* no result member: empty bytes *)
| RawNull                          (* the literal null *)
| RawText (s : string)             (* a JSON string *)
| RawObject (st : DownloadStatus)  (* an object, with the fields it gives a DownloadStatus *)
| RawOther (json : string).        (* a number, a boolean, an array, an ill-typed object *)

Record jsonRPCResponse : Type := mkResponse {
  resp_JSONRPC : string;
  Result : RawMessage;
  resp_Error : option jsonRPCError;
  resp_ID : string
}.

(** How one HTTP exchange ends once the request is on its way. *)
Inductive exchange : Type :=
| DoFails (e : error)              (* httpClient.Do: refused, timed out, ... *)
| ReadFails (e : error)            (* io.ReadAll on the body *)
| UnmarshalFails (e : error)       (* the body is not a response envelope *)
| Envelope (r : jsonRPCResponse).

Definition marshalable (p : param) : bool :=
  match p with PUnsupported => false | _ => true end.

(** [json.Marshal(req)]. *)
Definition Marshal (r : jsonRPCRequest) : option error :=
  if forallb marshalable (req_Params r) then None
  else Some (Foreign "json: unsupported type").

Definition rpcURL (a : Aria2) : string :=
  ("http://127.0.0.1:" ++ Itoa (port a) ++ "/jsonrpc")%string.

(** [http.NewRequest] parses the URL and rejects a port that is not made of
    digits, which is what [%d] prints for a negative number. *)
Definition NewRequest (a : Aria2) : option error :=
  if port a <? 0 then Some (Foreign "invalid port after host") else None.

Definition errProtocol (e : jsonRPCError) : error :=
  Errorf ("JSON-RPC错误 " ++ Itoa (Code e) ++ ": " ++ Message e).

(** [Call]; [now] is [time.Now().UnixNano()] and [x] the fate of the
    exchange. *)
Definition Call (a : Aria2) (w : World) (now : Z) (x : exchange)
           (method : string) (params : list param)
  : (RawMessage + error) * World :=
  let req := mkRequest "2.0" method params (Itoa now) in
  match Marshal req with
  | Some err => (inr (Wrapf "序列化请求失败: " err), w)
  | None =>
      let url := rpcURL a in
      match NewRequest a with
      | Some err => (inr (Wrapf "创建HTTP请求失败: " err), w)
      | None =>
          let w1 := log_request w url req in
          match x with
          | DoFails err => (inr (Wrapf "HTTP请求失败: " err), w1)
          | ReadFails err => (inr (Wrapf "读取响应失败: " err), w1)
          | UnmarshalFails err => (inr (Wrapf "解析响应失败: " err), w1)
          | Envelope rpcResp =>
              match resp_Error rpcResp with
              | Some e => (inr (errProtocol e), w1)
              | None => (inl (Result rpcResp), w1)
              end
          end
      end
  end.

Definition zeroStatus : DownloadStatus :=
  mkStatus "" "" "" "" "" "" "" "" "" "" [].

(** [json.Unmarshal(result, &gid)] with [gid] a string. *)
Definition unmarshal_string (m : RawMessage) : string + error :=
  match m with
  | RawText s => inl s
  | RawNull => inl ""%string
  | RawAbsent => inr (Foreign "unexpected end of JSON input")
  | RawObject _ => inr (Foreign "json: cannot unmarshal object into Go value of type string")
  | RawOther _ => inr (Foreign "json: cannot unmarshal into Go value of type string")
  end.

(** [json.Unmarshal(result, &status)] with [status] a DownloadStatus. *)
Definition unmarshal_status (m : RawMessage) : DownloadStatus + error :=
  match m with
  | RawObject st => inl st
  | RawNull => inl zeroStatus
  | RawAbsent => inr (Foreign "unexpected end of JSON input")
  | RawText _ => inr (Foreign "json: cannot unmarshal string into Go value of type aria2.DownloadStatus")
  | RawOther _ => inr (Foreign "json: cannot unmarshal into Go value of type aria2.DownloadStatus")
  end.

Definition AddUri (a : Aria2) (w : World) (now : Z) (x : exchange)
           (uri dir out : string) : (string + error) * World :=
  match Call a w now x "aria2.addUri"
             [PStrings [uri]; POptions [("dir", dir); ("out", out)]%string] with
  | (inr err, w1) => (inr err, w1)
  | (inl result, w1) =>
      match unmarshal_string result with
      | inr err => (inr (Wrapf "解析GID失败: " err), w1)
      | inl gid => (inl gid, w1)
      end
  end.

Definition TellStatus (a : Aria2) (w : World) (now : Z) (x : exchange)
           (gid : string) : (DownloadStatus + error) * World :=
  match Call a w now x "aria2.tellStatus" [PString gid] with
  | (inr err, w1) => (inr err, w1)
  | (inl result, w1) =>
      match unmarshal_status result with
      | inr err => (inr (Wrapf "解析状态失败: " err), w1)
      | inl status => (inl status, w1)
      end
  end.

(** ** The polling loop *)

(** How a call that returns [(string, error)] ends. *)
Inductive result : Type :=
| Return (path : string) (err : option error)
| Panic (v : string).

(** One turn of the [select] in [monitorDownload]: the 1 s ticker fires (with
    the clock reading and the exchange [TellStatus] then meets), or the
    runtime tries the [ctx.Done()] case. *)
Inductive monEvent : Type :=
| MTick (now : Z) (x : exchange)
| MDone.

Inductive iteration : Type :=
| Continue                 (* back to the select *)
| Break (r : result).

Definition run_callback (callback : option DownloadCallback) (st : DownloadStatus)
  : callbackResult :=
  match callback with
  | Some f => f st
  | None => CbReturn st
  end.

Definition called (callback : option DownloadCallback) (st : DownloadStatus)
  : list DownloadStatus :=
  match callback with Some _ => [st] | None => [] end.

(** The body of the [for] loop: what it decides, which statuses it handed to
    the callback, and the world afterwards. *)
Definition monitor_iter (a : Aria2) (w : World) (gid : string)
           (callback : option DownloadCallback) (ev : monEvent)
  : iteration * list DownloadStatus * World :=
  match ev with
  | MTick now x =>
      match TellStatus a w now x gid with
      | (inr err, w1) => (Break (Return "" (Some err)), [], w1)
      | (inl status, w1) =>
          match run_callback callback status with
          | CbPanic v => (Break (Panic v), called callback status, w1)
          | CbReturn status' =>
              let it :=
                if String.eqb (Status status') "complete" then
                  match Files status' with
                  | f :: _ => Break (Return (Path f) None)
                  | [] => Break (Panic "index out of range [0] with length 0")
                  end
                else if String.eqb (Status status') "error" then
                  Break (Return "" (Some (Errorf ("下载出错: " ++ ErrorMessage status'))))
                else Continue
              in (it, called callback status, w1)
          end
      end
  | MDone =>
      if ctx_done w (ctx a) then (Break (Return "" (Some errCancelled)), [], w)
      else (Continue, [], w)
  end.

(** A run of the loop over the select turns [evs]. *)
Record monitorRun : Type := mkRun {
  outcome : option result;          (* None: still in the loop *)
  callbacks : list DownloadStatus;  (* what the callback was called with, in order *)
  world_after : World;
  pending : list monEvent           (* turns the loop never got to *)
}.

Fixpoint monitorDownload (a : Aria2) (w : World) (gid : string)
         (callback : option DownloadCallback) (evs : list monEvent) : monitorRun :=
  match evs with
  | [] => mkRun None [] w []
  | ev :: rest =>
      match monitor_iter a w gid callback ev with
      | (Break r, cbs, w1) => mkRun (Some r) cbs w1 rest
      | (Continue, cbs, w1) =>
          let run := monitorDownload a w1 gid callback rest in
          mkRun (outcome run) (cbs ++ callbacks run) (world_after run) (pending run)
      end
  end.

(** ** Download *)

Record DownloadEnv : Type := mkDownloadEnv {
  d_start : StartEnv;
  d_now : Z;                (* clock reading of the addUri call *)
  d_add : exchange;         (* exchange of the addUri call *)
  d_polls : list monEvent
}.

(** The package-level [Download], on the instance [a] it finds in the global
    variable [aria2]. *)
Definition Download (a : Aria2) (w : World) (env : DownloadEnv)
           (url dir out : string) (callback : option DownloadCallback)
  : monitorRun * Aria2 :=
  let '(started, a1, w1) :=
    if negb (IsRunning a) then Start a w (d_start env) else (None, a, w) in
  match started with
  | Some err => (mkRun (Some (Return "" (Some err))) [] w1 (d_polls env), a1)
  | None =>
      match AddUri a1 w1 (d_now env) (d_add env) url dir out with
      | (inr err, w2) => (mkRun (Some (Return "" (Some err))) [] w2 (d_polls env), a1)
      | (inl gid, w2) => (monitorDownload a1 w2 gid callback (d_polls env), a1)
      end
  end.

(** ** The program as a whole

    Callers reach the global instance through [Download] and [Stop], the
    watcher goroutine through [monitor]; goroutines interleave at the
    granularity of the locked methods and of single turns of a polling
    loop.  [sys_loop] follows one polling loop that is in flight. *)
Inductive action : Type :=
| ActStart (env : StartEnv)
| ActStop (fault : option error)
| ActExit (fault : option error)          (* the subprocess ends; the watcher wakes up *)
| ActCall (now : Z) (x : exchange) (method : string) (params : list param)
| ActDownload (env : DownloadEnv) (url dir out : string)
| ActPoll (ev : monEvent).                (* one turn of the loop in flight *)

Record System : Type := mkSystem {
  sys_a : Aria2;
  sys_w : World;
  sys_loop : option result                (* None: the loop is still polling *)
}.

Section Run.

Variable gid : string.
Variable callback : option DownloadCallback.

Definition step (s : System) (act : action) : System :=
  match act with
  | ActStart env =>
      let '(_, a, w) := Start (sys_a s) (sys_w s) env in mkSystem a w (sys_loop s)
  | ActStop fault =>
      let '(_, a, w) := Stop (sys_a s) (sys_w s) fault in mkSystem a w (sys_loop s)
  | ActExit fault =>
      let '(a, w) := monitor (sys_a s) (sys_w s) fault in mkSystem a w (sys_loop s)
  | ActCall now x method params =>
      let '(_, w) := Call (sys_a s) (sys_w s) now x method params in
      mkSystem (sys_a s) w (sys_loop s)
  | ActDownload env url dir out =>
      let '(run, a) := Download (sys_a s) (sys_w s) env url dir out callback in
      mkSystem a (world_after run) (sys_loop s)
  | ActPoll ev =>
      match sys_loop s with
      | Some _ => s
      | None =>
          match monitor_iter (sys_a s) (sys_w s) gid callback ev with
          | (Break r, _, w) => mkSystem (sys_a s) w (Some r)
          | (Continue, _, w) => mkSystem (sys_a s) w None
          end
      end
  end.

Definition run (s : System) (acts : list action) : System :=
  fold_left step acts s.

End Run.

(** ** Vocabulary of the statements *)

(** The world after [net.Listen] has been tried on each port of [l]. *)
Definition log_probes (w : World) (l : list Z) : World :=
  mkWorld (busy w) (probes w ++ l) (next_ctx w) (cancelled w)
          (next_pid w) (live w) (spawned w) (requests w).

(** [n] consecutive ports from [p] upwards. *)
Fixpoint ascending (p : Z) (n : nat) : list Z :=
  match n with
  | O => []
  | S n' => p :: ascending (p + 1) n'
  end.

(** The process handle the supervisor holds, if any
    ([a.cmd != nil && a.cmd.Process != nil]). *)
Definition handle (a : Aria2) : option pid :=
  match cmd a with
  | Some c => Process c
  | None => None
  end.

(** The supervisor owns a subprocess that is alive. *)
Definition owns_live (a : Aria2) (w : World) : bool :=
  match handle a with
  | Some p => is_live w p
  | None => false
  end.

(** The statuses on which the [switch] of [monitorDownload] returns. *)
Definition stops_polling (s : string) : bool :=
  String.eqb s "complete" || String.eqb s "error".

(** The failures of an exchange that was started and could not complete. *)
Definition TransportError (e : error) : Prop :=
  exists cause : error,
    e = Wrapf "HTTP请求失败: " cause \/
    e = Wrapf "读取响应失败: " cause \/
    e = Wrapf "解析响应失败: " cause.

(** The failure that carries the error object of a response envelope. *)
Definition ProtocolError (code : Z) (message : string) (e : error) : Prop :=
  e = Errorf ("JSON-RPC错误 " ++ Itoa code ++ ": " ++ message).

Definition port_flag (p : Z) : string := ("--rpc-listen-port=" ++ Itoa p)%string.

Definition port_url (p : Z) : string :=
  ("http://127.0.0.1:" ++ Itoa p ++ "/jsonrpc")%string.

(** [w'] is [w] after launches and requests that all went to port [p], with
    no port probed and no context cancelled in between. *)
Definition on_port (p : Z) (w w' : World) : Prop :=
  busy w' = busy w /\ probes w' = probes w /\ cancelled w' = cancelled w /\
  (exists ls, spawned w' = spawned w ++ ls /\
              Forall (fun l => hd_error (snd l) = Some (port_flag p)) ls) /\
  (exists rs, requests w' = requests w ++ rs /\
              Forall (fun r => fst r = port_url p) rs).

(** ** A reference run

    The supervisor as [newDaemon] builds it on a machine where port 6800 is
    free, and a start that finds the control port answering at the second
    dial. *)
Definition a_fresh : Aria2 := mkAria2 6800 false None 0%nat 0%nat 10.

Definition w_fresh : World := mkWorld [] [6800] 1%nat [] 0%nat [] [] [].

Definition env_ready : StartEnv :=
  mkStartEnv (inl "aria2c.exe"%string) None [WTick false; WTick true].

(** A start whose subprocess is spawned but never answers on the port. *)
Definition env_silent : StartEnv :=
  mkStartEnv (inl "aria2c.exe"%string) None [WTick false; WTick false; WTick false].

(** The response envelope whose result is the status [st]. *)
Definition status_reply (st : DownloadStatus) (id : string) : exchange :=
  Envelope (mkResponse "2.0" (RawObject st) None id).

(** A status with the given state, error fields and files. *)
Definition status_of (state code message : string) (files : list File)
  : DownloadStatus :=
  mkStatus "2089b05ecca3d829" state "10000" "1000" "0" "1048576" "1" "0"
           code message files.

(** ** The rest of the package *)

(** [(a *Aria2) Download(url)], the method next to the package-level
    function: it only reports whether the supervisor runs. *)
Definition Aria2_Download (a : Aria2) (url : string) : string * option error :=
  if negb (IsRunning a) then (""%string, Some (Errorf "aria2c没有运行"))
  else (""%string, None).

(** The package-level [Stop]: the error of the method is dropped. *)
Definition Stop_package (a : Aria2) (w : World) (fault : option error)
  : Aria2 * World :=
  let '(_, a1, w1) := Stop a w fault in (a1, w1).

(** ** embedder.go: the engine binary on disk *)

Module Embedder.

(** A file path, kept as the directory it starts from and the names joined
    to it: [filepath.Join] appends names, and the separator and the cleaning
    it applies are the platform's. *)
Record path : Type := mkPath {
  root : string;
  names : list string
}.

Definition dir (s : string) : path := mkPath s [].

Definition Join (p : path) (elems : list string) : path :=
  mkPath (root p) (names p ++ elems).

Fixpoint names_eqb (l m : list string) : bool :=
  match l, m with
  | [], [] => true
  | x :: l', y :: m' => String.eqb x y && names_eqb l' m'
  | _, _ => false
  end.

Definition path_eqb (p q : path) : bool :=
  String.eqb (root p) (root q) && names_eqb (names p) (names q).

(** The three binaries the build embeds ([//go:embed]). *)
Record Embedded : Type := mkEmbedded {
  aria2cWindows : list Byte.byte;
  aria2cLinux : list Byte.byte;
  aria2cDarwin : list Byte.byte
}.

(** What the process finds around it. *)
Record Host : Type := mkHost {
  GOOS : string;                       (* runtime.GOOS *)
  LOCALAPPDATA : string;               (* os.Getenv: empty when unset *)
  XDG_DATA_HOME : string;
  UserHomeDir : string + error         (* os.UserHomeDir() *)
}.

(** The file system: regular files with their content, and directories. *)
Record FS : Type := mkFS {
  files : list (path * list Byte.byte);
  dirs : list path
}.

(** How [os.WriteFile] ends: it may fail before the file is opened, or after
    having created or truncated it, leaving [left] behind. *)
Inductive writeOutcome : Type :=
| WriteOk
| WriteFails (e : error) (left : option (list Byte.byte)).

(** How [os.MkdirAll] ends: it makes the missing directories one by one
    from the top, so when it fails the first [made] directories on the way
    may exist afterwards. *)
Inductive mkdirOutcome : Type :=
| MkdirOk
| MkdirFails (e : error) (made : nat).

(** What one run of [ExtractBinary] meets in the file system. *)
Record FsEnv : Type := mkFsEnv {
  stat_fault : bool;                   (* os.Stat fails although the path exists *)
  mkdir : mkdirOutcome;                (* os.MkdirAll *)
  write : writeOutcome
}.

Definition errUnsupported (goos : string) : error :=
  Errorf ("不支持的平台: " ++ goos).

Definition GetEmbeddedBinaryData (h : Host) (e : Embedded)
  : list Byte.byte + error :=
  if String.eqb (GOOS h) "windows" then inl (aria2cWindows e)
  else if String.eqb (GOOS h) "linux" then inl (aria2cLinux e)
  else if String.eqb (GOOS h) "darwin" then inl (aria2cDarwin e)
  else inr (errUnsupported (GOOS h)).

Definition GetEmbeddedBinaryName (h : Host) : string + error :=
  if String.eqb (GOOS h) "windows" then inl "aria2c.exe"%string
  else if String.eqb (GOOS h) "linux" then inl "aria2c"%string
  else if String.eqb (GOOS h) "darwin" then inl "aria2c"%string
  else inr (errUnsupported (GOOS h)).

Definition errPlaceholder : error :=
  Errorf "未找到 aria2c 二进制文件 - 请先运行下载脚本".

Definition CheckBinaryExists (h : Host) (e : Embedded) : option error :=
  match GetEmbeddedBinaryData h e with
  | inr err => Some err
  | inl data =>
      if (List.length data <=? 2)%nat then Some errPlaceholder else None
  end.

Definition getAppDataDir (h : Host) : path + error :=
  let base : path + error :=
    if String.eqb (GOOS h) "windows" then
      if String.eqb (LOCALAPPDATA h) "" then
        match UserHomeDir h with
        | inr err => inr err
        | inl homeDir => inl (Join (dir homeDir) ["AppData"; "Local"]%string)
        end
      else inl (dir (LOCALAPPDATA h))
    else if String.eqb (GOOS h) "darwin" then
      match UserHomeDir h with
      | inr err => inr err
      | inl homeDir => inl (Join (dir homeDir) ["Library"; "Application Support"]%string)
      end
    else if String.eqb (GOOS h) "linux" then
      match UserHomeDir h with
      | inr err => inr err
      | inl homeDir =>
          if negb (String.eqb (XDG_DATA_HOME h) "") then inl (dir (XDG_DATA_HOME h))
          else inl (Join (dir homeDir) [".local"; "share"]%string)
      end
    else inr (errUnsupported (GOOS h))
  in
  match base with
  | inr err => inr err
  | inl baseDir => inl (Join baseDir ["aria2"%string])
  end.

Definition is_file (fs : FS) (p : path) : bool :=
  existsb (fun f => path_eqb (fst f) p) (files fs).

Definition is_dir (fs : FS) (p : path) : bool :=
  existsb (fun d => path_eqb d p) (dirs fs).

(** The content found at [p]: the entry written last. *)
Definition read (fs : FS) (p : path) : option (list Byte.byte) :=
  match find (fun f => path_eqb (fst f) p) (files fs) with
  | Some f => Some (snd f)
  | None => None
  end.

(** [os.Stat(p)] returns no error. *)
Definition Stat_ok (fs : FS) (env : FsEnv) (p : path) : bool :=
  (is_file fs p || is_dir fs p) && negb (stat_fault env).

(** The directory [p] and every directory above it, up to its root. *)
Definition ancestors (p : path) : list path :=
  map (fun n => mkPath (root p) (firstn n (names p))) (seq 0 (S (List.length (names p)))).

(** A successful [os.MkdirAll(p, 0755)]. *)
Definition MkdirAll (fs : FS) (p : path) : FS :=
  mkFS (files fs) (ancestors p ++ dirs fs).

(** An [os.MkdirAll(p, 0755)] that fails having made the first [made]
    directories above [p]; [p] itself is not made. *)
Definition MkdirAll_partial (fs : FS) (p : path) (made : nat) : FS :=
  mkFS (files fs)
       (firstn (Nat.min made (List.length (names p))) (ancestors p) ++ dirs fs).

(** The file [p] now holds [data]. *)
Definition put (fs : FS) (p : path) (data : list Byte.byte) : FS :=
  mkFS ((p, data) :: files fs) (dirs fs).

Definition WriteFile (fs : FS) (env : FsEnv) (p : path) (data : list Byte.byte)
  : option error * FS :=
  match write env with
  | WriteOk => (None, put fs p data)
  | WriteFails e (Some partial) => (Some e, put fs p partial)
  | WriteFails e None => (Some e, fs)
  end.

Definition ExtractBinary (h : Host) (e : Embedded) (fs : FS) (env : FsEnv)
  : (path + error) * FS :=
  match GetEmbeddedBinaryName h with
  | inr err => (inr err, fs)
  | inl filename =>
      match getAppDataDir h with
      | inr err => (inr (Wrapf "无法获取应用程序数据目录: " err), fs)
      | inl appDir =>
          let binaryPath := Join appDir [filename] in
          if Stat_ok fs env binaryPath then (inl binaryPath, fs)
          else
            match CheckBinaryExists h e with
            | Some err => (inr err, fs)
            | None =>
                match mkdir env with
                | MkdirFails err made =>
                    (inr (Wrapf "创建应用程序目录失败: " err),
                     MkdirAll_partial fs appDir made)
                | MkdirOk =>
                    let fs1 := MkdirAll fs appDir in
                    match GetEmbeddedBinaryData h e with
                    | inr err =>
                        (inr (Wrapf "无法获取嵌入的二进制文件数据: " err), fs1)
                    | inl data =>
                        match WriteFile fs1 env binaryPath data with
                        | (Some err, fs2) =>
                            (inr (Wrapf "写入二进制文件失败: " err), fs2)
                        | (None, fs2) => (inl binaryPath, fs2)
                        end
                    end
                end
            end
      end
  end.

(** The platforms the package carries a binary for. *)
Definition supported (goos : string) : bool :=
  String.eqb goos "windows" || String.eqb goos "linux" || String.eqb goos "darwin".

(** A reference machine: linux with a home directory, binaries of which
    the darwin one is a placeholder, an empty disk, and a file system that
    does as it is told. *)
Definition linux_host : Host :=
  mkHost "linux" "" "" (inl "/home/u"%string).

Definition some_binaries : Embedded :=
  mkEmbedded [Byte.x4d; Byte.x5a; Byte.x90]
             [Byte.x7f; Byte.x45; Byte.x4c; Byte.x46]
             [Byte.xcf; Byte.xfa].

Definition empty_fs : FS := mkFS [] [].

Definition calm : FsEnv := mkFsEnv false MkdirOk WriteOk.

End Embedder.

(** ** More vocabulary *)

(** The ticks among the select turns [evs]. *)
Definition ticks (evs : list monEvent) : nat :=
  List.length (filter (fun ev => match ev with MTick _ _ => true | MDone => false end) evs).

(** A callback that looks at the status and returns. *)
Definition observes (f : DownloadCallback) : Prop :=
  forall st, f st = CbReturn st.

(** Whether some dial of the readiness wait succeeded. *)
Definition dialled (evs : list waitEvent) : bool :=
  existsb (fun ev => match ev with WTick ok => ok | WDone => false end) evs.

(** [w'] differs from [w] by requests only. *)
Definition only_requests (w w' : World) : Prop :=
  busy w' = busy w /\ probes w' = probes w /\ next_ctx w' = next_ctx w /\
  cancelled w' = cancelled w /\ next_pid w' = next_pid w /\
  live w' = live w /\ spawned w' = spawned w.

(** The bookkeeping of subprocesses: every launch got the next process id,
    a held handle and every live process are among the launches, and a
    supervisor marked running holds a handle. *)
Definition supervised (a : Aria2) (w : World) : Prop :=
  List.length (spawned w) = next_pid w /\
  (forall p, handle a = Some p -> (p < next_pid w)%nat) /\
  (running a = true -> exists p, handle a = Some p) /\
  Forall (fun q => (q < next_pid w)%nat) (live w).

(** The clock readings of the ticks among [evs], in order. *)
Definition tick_times (evs : list monEvent) : list Z :=
  flat_map (fun ev => match ev with MTick now _ => [now] | MDone => [] end) evs.

(** The request a poll of task [gid] posts at clock reading [now]. *)
Definition tellStatus_request (a : Aria2) (gid : string) (now : Z)
  : string * jsonRPCRequest :=
  (rpcURL a, mkRequest "2.0" "aria2.tellStatus" [PString gid] (Itoa now)).

(** The request that submits a download at clock reading [now]. *)
Definition addUri_request (a : Aria2) (uri dir out : string) (now : Z)
  : string * jsonRPCRequest :=
  (rpcURL a,
   mkRequest "2.0" "aria2.addUri"
             [PStrings [uri]; POptions [("dir", dir); ("out", out)]%string]
             (Itoa now)).

(** The status a select turn brings, if its poll is answered with one. *)
Definition reported (ev : monEvent) : list DownloadStatus :=
  match ev with
  | MTick _ (Envelope r) =>
      match resp_Error r with
      | Some _ => []
      | None =>
          match unmarshal_status (Result r) with
          | inl st => [st]
          | inr _ => []
          end
      end
  | _ => []
  end.

(** No callback, or one that leaves the status as it found it. *)
Definition passive (callback : option DownloadCallback) : Prop :=
  match callback with
  | None => True
  | Some f => observes f
  end.

(** A callback that writes through the pointer it is given: it sets the
    status and the error message of the task, and returns. *)
Definition overwrite (state message : string) : DownloadCallback :=
  fun st =>
    CbReturn (mkStatus (GID st) state (TotalLength st) (CompletedLength st)
                       (DownloadSpeed st) (PieceLength st) (NumPieces st)
                       (Connections st) (ErrorCode st) message (Files st)).

(** * Properties *)

(** ** PortFinder *)

Lemma wrap_in_range (z : Z) : int_range z -> Go.wrap z = z.
Proof.
  unfold int_range, Go.wrap, minInt, maxInt. intros H.
  rewrite Z.mod_small; lia.
Qed.

Lemma log_probe_probes (w : World) (l : list Z) (p : Z) :
  log_probe (log_probes w l) p = log_probes w (l ++ [p]).
Proof. unfold log_probe, log_probes; simpl. now rewrite <- app_assoc. Qed.

Lemma log_probes_nil (w : World) : log_probes w [] = w.
Proof. destruct w; unfold log_probes; simpl. now rewrite app_nil_r. Qed.

Lemma Listen_ok_log_probes (w : World) (l : list Z) (p : Z) :
  Listen_ok (log_probes w l) p = Listen_ok w p.
Proof. reflexivity. Qed.

Lemma Listen_ok_valid (w : World) (p : Z) :
  Listen_ok w p = true -> 0 <= p <= 65535.
Proof.
  unfold Listen_ok. rewrite !andb_true_iff. intros [[H1 H2] _].
  apply Z.leb_le in H1. apply Z.leb_le in H2. lia.
Qed.

(** The scan from [P], having already logged [l], when a free port lies
    [n] steps ahead at most. *)
Lemma findAvailablePort_scan (n : nat) :
  forall (w : World) (l : list Z) (P q : Z),
    int_range P -> P <= q -> Z.to_nat (q - P) = n -> Listen_ok w q = true ->
    exists r : Z,
      P <= r <= q /\ Listen_ok w r = true /\
      (forall p, P <= p < r -> Listen_ok w p = false) /\
      forall fuel, (Z.to_nat (r - P) < fuel)%nat ->
        findAvailablePort fuel (log_probes w l) P
        = Some (r, log_probes w (l ++ ascending P (S (Z.to_nat (r - P))))).
Proof.
  induction n as [|n IH]; intros w l P q HP Hle Hn Hq.
  - assert (q = P) by lia. subst q. exists P. repeat split; try lia; auto.
    intros [|fuel] Hf; [lia|]. simpl findAvailablePort.
    rewrite Listen_ok_log_probes, Hq, log_probe_probes.
    now replace (Z.to_nat (P - P)) with 0%nat by lia.
  - destruct (Listen_ok w P) eqn:HlP.
    + exists P. repeat split; try lia; auto.
      intros [|fuel] Hf; [lia|]. simpl findAvailablePort.
      rewrite Listen_ok_log_probes, HlP, log_probe_probes.
      now replace (Z.to_nat (P - P)) with 0%nat by lia.
    + pose proof (Listen_ok_valid _ _ Hq) as Hv.
      assert (Hr : int_range (P + 1))
        by (unfold int_range, minInt, maxInt in *; lia).
      destruct (IH w (l ++ [P]) (P + 1) q Hr) as (r & Hb & Hfree & Hmin & Hrun);
        try lia; auto.
      exists r. split; [lia|]. split; [exact Hfree|]. split.
      * intros p Hp. destruct (Z.eq_dec p P) as [->|]; [exact HlP|].
        apply Hmin; lia.
      * intros [|fuel] Hf; [lia|]. simpl findAvailablePort.
        rewrite Listen_ok_log_probes, HlP, log_probe_probes.
        unfold Go.add. rewrite (wrap_in_range _ Hr).
        rewrite Hrun by lia.
        replace (Z.to_nat (r - P)) with (S (Z.to_nat (r - (P + 1)))) by lia.
        simpl ascending. now rewrite <- app_assoc.
Qed.

(** C9. When some port at or above the base port [P] can be bound,
    [findAvailablePort P] returns (with any recursion depth beyond the
    distance to it) the smallest port [r >= P] that can be bound: every port
    from [P] up to [r - 1] was refused, the ports were tried one by one in
    ascending order, each refusal leading to the next port, and the set of
    held ports is left as it was. *)
Theorem findAvailablePort_smallest_free (w : World) (P q : Z) :
  int_range P -> P <= q -> Listen_ok w q = true ->
  exists r : Z,
    P <= r <= q /\ Listen_ok w r = true /\
    (forall p, P <= p < r -> Listen_ok w p = false) /\
    forall fuel, (Z.to_nat (r - P) < fuel)%nat ->
      exists w',
        findAvailablePort fuel w P = Some (r, w') /\
        busy w' = busy w /\
        probes w' = probes w ++ ascending P (S (Z.to_nat (r - P))).
Proof.
  intros HP Hle Hq.
  destruct (findAvailablePort_scan (Z.to_nat (q - P)) w [] P q HP Hle eq_refl Hq)
    as (r & Hb & Hfree & Hmin & Hrun).
  exists r. repeat split; try tauto.
  intros fuel Hf. specialize (Hrun fuel Hf).
  rewrite log_probes_nil in Hrun. simpl app in Hrun.
  eexists. split; [exact Hrun|]. split; reflexivity.
Qed.

(** The scan from 6800 on a machine where 6800 and 6801 are taken. *)
Lemma findAvailablePort_smallest_free_witness :
  exists r : Z,
    6800 <= r <= 6802 /\ Listen_ok (world0 [6800; 6801]) r = true /\
    (forall p, 6800 <= p < r -> Listen_ok (world0 [6800; 6801]) p = false) /\
    forall fuel, (Z.to_nat (r - 6800) < fuel)%nat ->
      exists w',
        findAvailablePort fuel (world0 [6800; 6801]) 6800 = Some (r, w') /\
        busy w' = busy (world0 [6800; 6801]) /\
        probes w' = probes (world0 [6800; 6801])
                    ++ ascending 6800 (S (Z.to_nat (r - 6800))).
Proof.
  apply (findAvailablePort_smallest_free (world0 [6800; 6801]) 6800 6802).
  - unfold int_range, minInt, maxInt; lia.
  - lia.
  - reflexivity.
Defined.

(** ** Frame: what the operations leave alone *)

(** Closes [on_port] goals between worlds that differ in neither log. *)
Ltac same_logs :=
  repeat split; simpl; auto; exists []; simpl; rewrite app_nil_r; auto.

Lemma on_port_refl (p : Z) (w : World) : on_port p w w.
Proof. same_logs. Qed.

Lemma on_port_trans (p : Z) (w1 w2 w3 : World) :
  on_port p w1 w2 -> on_port p w2 w3 -> on_port p w1 w3.
Proof.
  intros (Hb & Hp & Hc & (ls & Hs & Fl) & (rs & Hr & Fr))
         (Hb' & Hp' & Hc' & (ls' & Hs' & Fl') & (rs' & Hr' & Fr')).
  repeat split; try congruence.
  - exists (ls ++ ls'). split.
    + rewrite Hs', Hs. now rewrite app_assoc.
    + apply Forall_app; auto.
  - exists (rs ++ rs'). split.
    + rewrite Hr', Hr. now rewrite app_assoc.
    + apply Forall_app; auto.
Qed.

Lemma on_port_WithCancel (p : Z) (w : World) : on_port p w (snd (WithCancel w)).
Proof. same_logs. Qed.

Lemma on_port_end_process (p : Z) (w : World) (q : pid) :
  on_port p w (end_process w q).
Proof. same_logs. Qed.

Lemma on_port_spawn (a : Aria2) (w : World) (path : string) :
  on_port (port a) w (snd (spawn w path (buildArgs a))).
Proof.
  repeat split; auto.
  - exists [(path, buildArgs a)]. split; auto.
  - exists []. simpl. now rewrite app_nil_r.
Qed.

Lemma on_port_log_request (a : Aria2) (w : World) (r : jsonRPCRequest) :
  on_port (port a) w (log_request w (rpcURL a) r).
Proof.
  repeat split; auto.
  - exists []. simpl. now rewrite app_nil_r.
  - exists [(rpcURL a, r)]. split; auto.
Qed.

Lemma on_port_Kill (p : Z) (w : World) (q : pid) (fault : option error) :
  on_port p w (snd (Kill w q fault)).
Proof.
  unfold Kill. destruct (is_live w q); [destruct fault|]; simpl;
    auto using on_port_refl, on_port_end_process.
Qed.

Lemma Start_frame (a : Aria2) (w : World) (env : StartEnv) :
  port (snd (fst (Start a w env))) = port a /\
  on_port (port a) w (snd (Start a w env)).
Proof.
  unfold Start.
  destruct (running a); [split; auto using on_port_refl|].
  destruct (extract env) as [path|err]; [|split; auto using on_port_refl].
  simpl. destruct (launch env) as [err|]; simpl.
  - split; auto. same_logs.
  - assert (H : on_port (port a) w
                  (snd (spawn (snd (WithCancel w)) path (buildArgs a)))).
    { apply (on_port_trans _ _ _ _ (on_port_WithCancel _ w)).
      apply (on_port_spawn a). }
    destruct (waitForRPC _ _ _); simpl; (split; [reflexivity|exact H]).
Qed.

Lemma Stop_frame (a : Aria2) (w : World) (fault : option error) :
  port (snd (fst (Stop a w fault))) = port a /\
  on_port (port a) w (snd (Stop a w fault)).
Proof.
  unfold Stop. simpl.
  destruct (cmd a) as [c|]; [|split; auto using on_port_refl].
  destruct (Process c) as [q|]; [|split; auto using on_port_refl].
  pose proof (on_port_Kill (port a) w q fault) as H.
  destruct (Kill w q fault) as [[err|] w1]; simpl in *; auto.
Qed.

Lemma monitor_frame (a : Aria2) (w : World) (fault : option error) :
  port (fst (monitor a w fault)) = port a /\
  on_port (port a) w (snd (monitor a w fault)).
Proof.
  unfold monitor.
  destruct (cmd a) as [c|] eqn:Hc; [|split; auto using on_port_refl].
  set (w1 := match Process c with Some p => end_process w p | None => w end).
  assert (H1 : on_port (port a) w w1)
    by (subst w1; destruct (Process c); auto using on_port_refl, on_port_end_process).
  destruct (Stop_frame a w1 fault) as [Hp Hf].
  destruct (Stop a w1 fault) as [[e a1] w2]; simpl in *.
  split; [exact Hp|]. eapply on_port_trans; eauto.
Qed.

Lemma Call_frame (a : Aria2) (w : World) (now : Z) (x : exchange)
      (method : string) (params : list param) :
  on_port (port a) w (snd (Call a w now x method params)).
Proof.
  unfold Call.
  destruct (Marshal _); [apply on_port_refl|].
  destruct (NewRequest a); [apply on_port_refl|].
  destruct x as [e|e|e|r]; simpl; try apply on_port_log_request.
  destruct (resp_Error r); apply on_port_log_request.
Qed.

Lemma AddUri_frame (a : Aria2) (w : World) (now : Z) (x : exchange)
      (uri dir out : string) :
  on_port (port a) w (snd (AddUri a w now x uri dir out)).
Proof.
  unfold AddUri.
  pose proof (Call_frame a w now x "aria2.addUri"
                [PStrings [uri]; POptions [("dir", dir); ("out", out)]%string]) as H.
  destruct (Call _ _ _ _ _ _) as [[m|e] w1]; simpl in *; auto.
  destruct (unmarshal_string m); auto.
Qed.

Lemma TellStatus_frame (a : Aria2) (w : World) (now : Z) (x : exchange)
      (gid : string) :
  on_port (port a) w (snd (TellStatus a w now x gid)).
Proof.
  unfold TellStatus.
  pose proof (Call_frame a w now x "aria2.tellStatus" [PString gid]) as H.
  destruct (Call _ _ _ _ _ _) as [[m|e] w1]; simpl in *; auto.
  destruct (unmarshal_status m); auto.
Qed.

Lemma monitor_iter_frame (a : Aria2) (w : World) (gid : string)
      (callback : option DownloadCallback) (ev : monEvent) :
  on_port (port a) w (snd (monitor_iter a w gid callback ev)).
Proof.
  unfold monitor_iter. destruct ev as [now x|].
  - pose proof (TellStatus_frame a w now x gid) as H.
    destruct (TellStatus a w now x gid) as [[st|e] w1]; simpl in *; auto.
    destruct (run_callback callback st); auto.
  - destruct (ctx_done w (ctx a)); apply on_port_refl.
Qed.

Lemma monitorDownload_frame (a : Aria2) (gid : string)
      (callback : option DownloadCallback) (evs : list monEvent) :
  forall w, on_port (port a) w (world_after (monitorDownload a w gid callback evs)).
Proof.
  induction evs as [|ev rest IH]; intros w; simpl.
  - apply on_port_refl.
  - pose proof (monitor_iter_frame a w gid callback ev) as H.
    destruct (monitor_iter a w gid callback ev) as [[[|r] cbs] w1]; simpl in *; auto.
    eapply on_port_trans; eauto.
Qed.

Lemma Download_frame (a : Aria2) (w : World) (env : DownloadEnv)
      (url dir out : string) (callback : option DownloadCallback) :
  port (snd (Download a w env url dir out callback)) = port a /\
  on_port (port a) w (world_after (fst (Download a w env url dir out callback))).
Proof.
  unfold Download, IsRunning.
  assert (H : forall s : option error * Aria2 * World,
             port (snd (fst s)) = port a -> on_port (port a) w (snd s) ->
             port (snd (let '(started, a1, w1) := s in
               match started with
               | Some err => (mkRun (Some (Return "" (Some err))) [] w1 (d_polls env), a1)
               | None =>
                 match AddUri a1 w1 (d_now env) (d_add env) url dir out with
                 | (inr err, w2) => (mkRun (Some (Return "" (Some err))) [] w2 (d_polls env), a1)
                 | (inl gid, w2) => (monitorDownload a1 w2 gid callback (d_polls env), a1)
                 end
               end)) = port a /\
             on_port (port a) w (world_after (fst (let '(started, a1, w1) := s in
               match started with
               | Some err => (mkRun (Some (Return "" (Some err))) [] w1 (d_polls env), a1)
               | None =>
                 match AddUri a1 w1 (d_now env) (d_add env) url dir out with
                 | (inr err, w2) => (mkRun (Some (Return "" (Some err))) [] w2 (d_polls env), a1)
                 | (inl gid, w2) => (monitorDownload a1 w2 gid callback (d_polls env), a1)
                 end
               end)))).
  { intros [[started a1] w1] Hp Hf; simpl in Hp, Hf.
    destruct started as [err|]; [simpl; auto|].
    pose proof (AddUri_frame a1 w1 (d_now env) (d_add env) url dir out) as HA.
    rewrite Hp in HA.
    destruct (AddUri a1 w1 (d_now env) (d_add env) url dir out) as [[g|err] w2];
      simpl in *; split; auto.
    - eapply on_port_trans; [exact Hf|]. eapply on_port_trans; [exact HA|].
      rewrite <- Hp. apply monitorDownload_frame.
    - eapply on_port_trans; eauto. }
  destruct (running a); simpl negb; cbv iota.
  - apply (H (None, a, w)); simpl; auto using on_port_refl.
  - apply H; apply Start_frame.
Qed.

Lemma step_frame (gid : string) (callback : option DownloadCallback)
      (s : System) (act : action) :
  port (sys_a (step gid callback s act)) = port (sys_a s) /\
  on_port (port (sys_a s)) (sys_w s) (sys_w (step gid callback s act)).
Proof.
  destruct s as [a w l]. destruct act as [env|fault|fault|now x m ps|env u d o|ev]; simpl.
  - pose proof (Start_frame a w env) as H.
    destruct (Start a w env) as [[e a1] w1]; exact H.
  - pose proof (Stop_frame a w fault) as H.
    destruct (Stop a w fault) as [[e a1] w1]; exact H.
  - pose proof (monitor_frame a w fault) as H.
    destruct (monitor a w fault) as [a1 w1]; exact H.
  - pose proof (Call_frame a w now x m ps) as H.
    destruct (Call a w now x m ps) as [r w1]; simpl in *; auto.
  - pose proof (Download_frame a w env u d o callback) as H.
    destruct (Download a w env u d o callback) as [r a1]; exact H.
  - destruct l as [r|]; simpl; [auto using on_port_refl|].
    pose proof (monitor_iter_frame a w gid callback ev) as H.
    destruct (monitor_iter a w gid callback ev) as [[[|r] cbs] w1]; simpl in *; auto.
Qed.

Lemma run_frame (gid : string) (callback : option DownloadCallback)
      (acts : list action) :
  forall s : System,
    port (sys_a (run gid callback s acts)) = port (sys_a s) /\
    on_port (port (sys_a s)) (sys_w s) (sys_w (run gid callback s acts)).
Proof.
  unfold run. induction acts as [|act acts IH]; intros s; simpl.
  - auto using on_port_refl.
  - destruct (step_frame gid callback s act) as [Hp Hf].
    destruct (IH (step gid callback s act)) as [Hp' Hf'].
    rewrite Hp in Hp', Hf'. split; [exact Hp'|].
    eapply on_port_trans; eauto.
Qed.

(** The scan only adds to the log of probes. *)
Lemma findAvailablePort_logs (fuel : nat) :
  forall (w w' : World) (p r : Z),
    findAvailablePort fuel w p = Some (r, w') ->
    cancelled w' = cancelled w /\ live w' = live w /\
    spawned w' = spawned w /\ requests w' = requests w.
Proof.
  induction fuel as [|fuel IH]; intros w w' p r H; simpl in H; [discriminate|].
  destruct (Listen_ok w p).
  - inversion H; subst. auto.
  - apply IH in H. exact H.
Qed.

(** The supervisor and the world as [newDaemon] leaves them at program
    start. *)
Lemma newDaemon_init (fuel : nat) (held : list Z) (a0 : Aria2) (w0 : World) :
  newDaemon fuel (world0 held) = Some (a0, w0) ->
  findAvailablePort fuel (snd (WithCancel (world0 held))) 6800 = Some (port a0, w0) /\
  running a0 = false /\ cmd a0 = None /\
  cancelled w0 = [] /\ live w0 = [] /\ spawned w0 = [] /\ requests w0 = [].
Proof.
  unfold newDaemon. simpl. intros H.
  destruct (findAvailablePort fuel _ 6800) as [[p w2]|] eqn:Hf; [|discriminate].
  inversion H; subst. simpl.
  apply findAvailablePort_logs in Hf. simpl in Hf. tauto.
Qed.

(** ** One port for the whole life of the supervisor *)

(** C10. The control port is the one [newDaemon] got from
    [findAvailablePort 6800]; whatever sequence of Start, Stop, subprocess
    exits, calls, downloads and polling turns follows, the port field keeps
    that value, no port is probed again, every launch of the subprocess
    passes [--rpc-listen-port=<that port>] first and every request goes to
    [http://127.0.0.1:<that port>/jsonrpc]. *)
Theorem port_chosen_once (fuel : nat) (held : list Z) (a0 : Aria2) (w0 : World)
        (gid : string) (callback : option DownloadCallback) (acts : list action) :
  newDaemon fuel (world0 held) = Some (a0, w0) ->
  let s := run gid callback (mkSystem a0 w0 None) acts in
  findAvailablePort fuel (snd (WithCancel (world0 held))) 6800 = Some (port a0, w0) /\
  port (sys_a s) = port a0 /\
  probes (sys_w s) = probes w0 /\
  Forall (fun l => hd_error (snd l) = Some (port_flag (port a0))) (spawned (sys_w s)) /\
  Forall (fun r => fst r = port_url (port a0)) (requests (sys_w s)).
Proof.
  intros Hnew s.
  destruct (newDaemon_init fuel held a0 w0 Hnew)
    as (Hfind & _ & _ & _ & _ & Hs0 & Hr0).
  split; [exact Hfind|].
  destruct (run_frame gid callback acts (mkSystem a0 w0 None))
    as (Hp & _ & Hpr & _ & (ls & Hs & Fl) & (rs & Hr & Fr)).
  fold s in Hp, Hpr, Hs, Hr. simpl in Hp, Hpr, Hs, Hr, Fl, Fr.
  rewrite Hs0 in Hs. rewrite Hr0 in Hr.
  simpl in Hs, Hr. rewrite Hs, Hr. auto.
Qed.

(** A supervisor built while 6800 and 6801 are taken, then started, called,
    stopped, started again and left by its subprocess. *)
Lemma port_chosen_once_witness :
  exists (a0 : Aria2) (w0 : World),
    newDaemon 4 (world0 [6800; 6801]) = Some (a0, w0) /\
    let s := run "2089b05ecca3d829" None (mkSystem a0 w0 None)
                 [ ActStart (mkStartEnv (inl "aria2c.exe"%string) None [WTick false; WTick true]);
                   ActCall 17 (DoFails (Foreign "connection refused")) "aria2.tellStatus" [];
                   ActStop None;
                   ActStart (mkStartEnv (inl "aria2c.exe"%string) None [WTick true]);
                   ActExit None ] in
    findAvailablePort 4 (snd (WithCancel (world0 [6800; 6801]))) 6800
    = Some (port a0, w0) /\
    port (sys_a s) = port a0 /\
    probes (sys_w s) = probes w0 /\
    Forall (fun l => hd_error (snd l) = Some (port_flag (port a0))) (spawned (sys_w s)) /\
    Forall (fun r => fst r = port_url (port a0)) (requests (sys_w s)).
Proof.
  eexists. eexists. split.
  - reflexivity.
  - apply (port_chosen_once 4 [6800; 6801]). reflexivity.
Defined.

(** ** The control client *)

Lemma prefix_app (s t : string) : String.prefix s (s ++ t) = true.
Proof.
  induction s as [|c s IH]; simpl.
  - now destruct t.
  - destruct (ascii_dec c c); [exact IH|congruence].
Qed.

Lemma Contains_unfold (s sub : string) :
  Contains s sub =
  if String.prefix sub s then true
  else match s with
       | EmptyString => false
       | String _ rest => Contains rest sub
       end.
Proof. destruct s; reflexivity. Qed.

Lemma Contains_head (s t : string) : Contains (s ++ t) s = true.
Proof. rewrite Contains_unfold. now rewrite prefix_app. Qed.

Lemma Contains_app_r (pre s sub : string) :
  Contains s sub = true -> Contains (pre ++ s) sub = true.
Proof.
  intros H. induction pre as [|c pre IH]; [exact H|].
  change (String c pre ++ s)%string with (String c (pre ++ s)).
  rewrite Contains_unfold.
  destruct (String.prefix sub (String c (pre ++ s))); auto.
Qed.

Lemma Contains_self (s : string) : Contains s s = true.
Proof.
  rewrite Contains_unfold.
  replace (String.prefix s s) with (String.prefix s (s ++ "")).
  - now rewrite prefix_app.
  - f_equal. induction s; simpl; congruence.
Qed.

(** C8 (as the code has it).  Every call ends in exactly one of these ways.  If the request cannot
    be built nothing is sent.  Otherwise one request is posted, and only one,
    whatever happens next: when the exchange cannot complete (the request
    fails, the body cannot be read or is not a response envelope) the call
    fails with a transport error; when the envelope carries an error object
    the call fails with the protocol error made of its code and message;
    otherwise the call returns the result payload as received. *)
Theorem Call_outcomes (a : Aria2) (w : World) (now : Z) (x : exchange)
        (method : string) (params : list param) :
  let req := mkRequest "2.0" method params (Itoa now) in
  let sent := log_request w (rpcURL a) req in
  match Marshal req, NewRequest a with
  | Some err, _ =>
      Call a w now x method params = (inr (Wrapf "序列化请求失败: " err), w)
  | None, Some err =>
      Call a w now x method params = (inr (Wrapf "创建HTTP请求失败: " err), w)
  | None, None =>
      match x with
      | DoFails _ | ReadFails _ | UnmarshalFails _ =>
          exists err, Call a w now x method params = (inr err, sent) /\
                      TransportError err
      | Envelope r =>
          match resp_Error r with
          | Some e =>
              exists err, Call a w now x method params = (inr err, sent) /\
                          ProtocolError (Code e) (Message e) err /\
                          Contains (Error err) (Itoa (Code e)) = true /\
                          Contains (Error err) (Message e) = true
          | None => Call a w now x method params = (inl (Result r), sent)
          end
      end
  end.
Proof.
  intros req sent. unfold Call. fold req.
  destruct (Marshal req) as [err|]; [reflexivity|].
  destruct (NewRequest a) as [err|]; [reflexivity|].
  fold sent.
  destruct x as [cause|cause|cause|r].
  - eexists. split; [reflexivity|]. exists cause. auto.
  - eexists. split; [reflexivity|]. exists cause. auto.
  - eexists. split; [reflexivity|]. exists cause. auto.
  - destruct (resp_Error r) as [e|]; [|reflexivity].
    eexists. split; [reflexivity|]. split; [reflexivity|].
    unfold errProtocol. cbn [Error]. split.
    + apply Contains_app_r. apply Contains_head.
    + apply Contains_app_r. apply Contains_app_r. apply Contains_app_r.
      apply Contains_self.
Qed.

(** C8 as stated fails: with a parameter that cannot be serialized the call
    fails before anything is sent, although the engine would have answered
    with a result; the error is neither a transport error nor a protocol
    error, and no payload is returned. *)
Lemma Call_unserializable_parameter :
  let failure := Wrapf "序列化请求失败: " (Foreign "json: unsupported type") in
  Call a_fresh w_fresh 7
       (Envelope (mkResponse "2.0" (RawText "2089b05ecca3d829") None "7"))
       "aria2.addUri" [PUnsupported]
  = (inr failure, w_fresh) /\
  ~ TransportError failure /\
  (forall code message, ~ ProtocolError code message failure).
Proof.
  split; [reflexivity|]. split.
  - intros [cause [H|[H|H]]]; discriminate.
  - intros code message H. discriminate.
Qed.

Lemma newDaemon_fresh : newDaemon 1 (world0 []) = Some (a_fresh, w_fresh).
Proof. reflexivity. Qed.





(** ** Stop *)

Lemma is_live_end_process (w : World) (p : pid) : is_live (end_process w p) p = false.
Proof.
  unfold is_live, end_process, mem_nat; simpl.
  induction (live w) as [|q l IH]; simpl; [reflexivity|].
  destruct (Nat.eqb p q) eqn:E; simpl; [exact IH|].
  now rewrite E.
Qed.

Lemma Stop_running (a : Aria2) (w : World) (fault : option error) :
  running (snd (fst (Stop a w fault))) = false.
Proof.
  unfold Stop. destruct a as [pt rn [c|] cx cn tm]; simpl; [|reflexivity].
  destruct (Process c) as [p|]; [|reflexivity].
  now destruct (Kill w p fault) as [[e|] w1].
Qed.

(** C6 (as the code has it).  Every call of [Stop] leaves the supervisor
    marked stopped, also when the kill fails, and so does a call made when it
    is already stopped.  It returns no error exactly when no process handle
    is held or the held process was alive and the kill went through; the
    handle itself is kept, so [Stop] reports the failed kill when the process
    behind it has already finished.  After a call without error no live
    subprocess is owned. *)
Theorem Stop_marks_stopped (a : Aria2) (w : World) (fault : option error) :
  let '(err, a', w') := Stop a w fault in
  running a' = false /\
  (err = None <->
   handle a = None \/
   exists p, handle a = Some p /\ is_live w p = true /\ fault = None) /\
  (err = None -> owns_live a' w' = false) /\
  handle a' = handle a /\
  forall fault', running (snd (fst (Stop a' w' fault'))) = false.
Proof.
  unfold Stop, owns_live, handle.
  destruct a as [pt rn [c|] cx cn tm]; simpl.
  2:{ repeat split; auto. }
  destruct (Process c) as [p|] eqn:HP; simpl.
  2:{ rewrite HP. repeat split; auto. }
  unfold Kill. destruct (is_live w p) eqn:Hl.
  - destruct fault as [e|]; simpl; rewrite ?HP.
    + split; [reflexivity|]. split; [|split; [discriminate|split; [reflexivity|]]].
      * split; [discriminate|].
        intros [H|(q & _ & _ & H)]; discriminate.
      * intros fault'. rewrite Hl. now destruct fault'.
    + split; [reflexivity|]. split; [|split; [|split; [reflexivity|]]].
      * split; [|reflexivity]. intros _. right. exists p. auto.
      * intros _. apply is_live_end_process.
      * intros fault'. now rewrite is_live_end_process.
  - simpl. rewrite ?HP.
    split; [reflexivity|]. split; [|split; [discriminate|split; [reflexivity|]]].
    + split; [discriminate|].
      intros [H|(q & Hq & Hlq & _)]; [discriminate|].
      injection Hq as ->. congruence.
    + intros fault'. now rewrite Hl.
Qed.

(** C6 as stated fails: the supervisor is started, its subprocess ends and
    the watcher marks it stopped; the next [Stop] finds it stopped and
    returns an error. *)
Lemma Stop_when_stopped_returns_error :
  let s := run "" None (mkSystem a_fresh w_fresh None)
               [ActStart env_ready; ActExit None] in
  running (sys_a s) = false /\
  Stop (sys_a s) (sys_w s) None
  = (Some (Wrapf "failed to kill aria2c process: "
                 (Foreign "os: process already finished")),
     sys_a s, sys_w s).
Proof. split; reflexivity. Qed.

(** ** Start *)

(** C3, at a start whose subprocess never answers on the control port: the
    call fails with the readiness timeout, the supervisor is marked not
    running, and the subprocess it spawned is alive and still held. *)
Lemma Start_timeout_keeps_subprocess :
  let '(err, a, w) := Start a_fresh w_fresh env_silent in
  err = Some (Wrapf "RPC service failed to start: " errTimeout) /\
  running a = false /\
  handle a = Some 0%nat /\
  owns_live a w = true.
Proof. repeat split. Qed.

(** ** The polling loop *)

Lemma TellStatus_sent (a : Aria2) (w w1 : World) (now : Z) (x : exchange)
      (gid : string) (status : DownloadStatus) :
  TellStatus a w now x gid = (inl status, w1) ->
  w1 = log_request w (rpcURL a)
                   (mkRequest "2.0" "aria2.tellStatus" [PString gid] (Itoa now)).
Proof.
  unfold TellStatus, Call. simpl.
  destruct (NewRequest a); [discriminate|].
  destruct x as [e|e|e|r]; try discriminate.
  destruct (resp_Error r); [discriminate|].
  destruct (unmarshal_status (Result r)); [|discriminate].
  now intros [= _ <-].
Qed.

(** A run that is still polling after [pre] goes on with [post]. *)
Lemma monitorDownload_app (a : Aria2) (gid : string)
      (callback : option DownloadCallback) (pre post : list monEvent) :
  forall w,
    outcome (monitorDownload a w gid callback pre) = None ->
    monitorDownload a w gid callback (pre ++ post)
    = let before := monitorDownload a w gid callback pre in
      let after := monitorDownload a (world_after before) gid callback post in
      mkRun (outcome after) (callbacks before ++ callbacks after)
            (world_after after) (pending after).
Proof.
  induction pre as [|ev pre IH]; intros w Hpre; simpl in *.
  - now destruct (monitorDownload a w gid callback post).
  - destruct (monitor_iter a w gid callback ev) as [[[|r] cbs] w1]; simpl in *;
      [|discriminate].
    rewrite (IH w1 Hpre). simpl. now rewrite app_assoc.
Qed.

(** The turn on which the ticker fires and the engine answers with a status
    the callback leaves alone. *)
Lemma monitor_iter_status (a : Aria2) (w w1 : World) (gid : string)
      (callback : option DownloadCallback) (now : Z) (x : exchange)
      (status status' : DownloadStatus) :
  TellStatus a w now x gid = (inl status, w1) ->
  run_callback callback status = CbReturn status' ->
  monitor_iter a w gid callback (MTick now x)
  = (if String.eqb (Status status') "complete" then
       match Files status' with
       | f :: _ => Break (Return (Path f) None)
       | [] => Break (Panic "index out of range [0] with length 0")
       end
     else if String.eqb (Status status') "error" then
       Break (Return "" (Some (Errorf ("下载出错: " ++ ErrorMessage status'))))
     else Continue,
     called callback status, w1).
Proof. intros HT HC. unfold monitor_iter. now rewrite HT, HC. Qed.

(** What [Download] returns is what its polling loop returns, once the
    supervisor runs and the download was accepted. *)
Lemma Download_returns_monitorDownload (a : Aria2) (w w1 : World)
      (env : DownloadEnv) (url dir out gid : string)
      (callback : option DownloadCallback) :
  IsRunning a = true ->
  AddUri a w (d_now env) (d_add env) url dir out = (inl gid, w1) ->
  Download a w env url dir out callback
  = (monitorDownload a w1 gid callback (d_polls env), a).
Proof. intros HR HA. unfold Download. rewrite HR. simpl. now rewrite HA. Qed.

Lemma run_callback_passive (callback : option DownloadCallback)
      (status : DownloadStatus) :
  passive callback -> run_callback callback status = CbReturn status.
Proof. destruct callback as [f|]; simpl; auto. Qed.

(** The turn on which the ticker fires and the engine answers with a status
    over which the callback panics. *)
Lemma monitor_iter_panic (a : Aria2) (w w1 : World) (gid : string)
      (callback : option DownloadCallback) (now : Z) (x : exchange)
      (status : DownloadStatus) (v : string) :
  TellStatus a w now x gid = (inl status, w1) ->
  run_callback callback status = CbPanic v ->
  monitor_iter a w gid callback (MTick now x)
  = (Break (Panic v), called callback status, w1).
Proof. intros HT HC. unfold monitor_iter. now rewrite HT, HC. Qed.

(** C4 (as the code has it).  On a turn where the engine reports a status,
    one and only one request is made and the callback, if any, is called
    with that status; the [switch] then reads the status as the callback
    left it, which is the status reported when there is no callback or the
    callback does not alter it.  If that status is [complete] or [error]
    the loop ends on that very turn: the later turns are never taken and
    nothing more is requested.  On every other status, [removed] included,
    the loop goes on with the next turn.  A callback that panics ends the
    loop on that turn as well. *)
Theorem monitorDownload_stops_on_complete_or_error
        (a : Aria2) (w w1 : World) (gid : string)
        (callback : option DownloadCallback) (pre post : list monEvent)
        (now : Z) (x : exchange) (status : DownloadStatus) :
  let before := monitorDownload a w gid callback pre in
  let run := monitorDownload a w gid callback (pre ++ MTick now x :: post) in
  let onward := monitorDownload a w1 gid callback post in
  outcome before = None ->
  TellStatus a (world_after before) now x gid = (inl status, w1) ->
  requests w1
  = requests (world_after before) ++ [tellStatus_request a gid now] /\
  (passive callback -> run_callback callback status = CbReturn status) /\
  match run_callback callback status with
  | CbReturn status' =>
      if stops_polling (Status status')
      then (exists r, outcome run = Some r) /\
           pending run = post /\
           world_after run = w1 /\
           callbacks run = callbacks before ++ called callback status
      else outcome run = outcome onward /\
           pending run = pending onward /\
           world_after run = world_after onward /\
           callbacks run
           = callbacks before ++ called callback status ++ callbacks onward
  | CbPanic v =>
      run = mkRun (Some (Panic v)) (callbacks before ++ called callback status)
                  w1 post
  end.
Proof.
  intros before run onward Hpre HT.
  split; [now rewrite (TellStatus_sent _ _ _ _ _ _ _ HT)|].
  split; [apply run_callback_passive|].
  subst run. rewrite (monitorDownload_app _ _ _ _ _ _ Hpre). fold before.
  cbn zeta. cbn [monitorDownload].
  destruct (run_callback callback status) as [status'|v] eqn:HC.
  - rewrite (monitor_iter_status _ _ _ _ _ _ _ _ _ HT HC).
    unfold stops_polling.
    destruct (String.eqb (Status status') "complete"); simpl.
    + destruct (Files status'); simpl; repeat split; eauto.
    + destruct (String.eqb (Status status') "error"); simpl; repeat split; eauto.
  - rewrite (monitor_iter_panic _ _ _ _ _ _ _ _ _ HT HC). reflexivity.
Qed.

(** A loop with a callback whose second poll finds the task in error,
    with one more turn waiting. *)
Lemma monitorDownload_stops_on_complete_or_error_witness :
  let a := set_running a_fresh true in
  let gid := "2089b05ecca3d829"%string in
  let callback := Some (CbReturn : DownloadCallback) in
  let active := status_of "active" "" "" [] in
  let failed := status_of "error" "3" "Resource was not found" [] in
  let pre := [MTick 8 (status_reply active "8")] in
  let before := monitorDownload a w_fresh gid callback pre in
  let w1 := log_request (world_after before) (rpcURL a)
              (mkRequest "2.0" "aria2.tellStatus" [PString gid] (Itoa 9)) in
  let run := monitorDownload a w_fresh gid callback
               (pre ++ MTick 9 (status_reply failed "9") :: [MDone]) in
  requests w1
  = requests (world_after before) ++ [tellStatus_request a gid 9] /\
  (passive callback -> run_callback callback failed = CbReturn failed) /\
  ((exists r, outcome run = Some r) /\
   pending run = [MDone] /\
   world_after run = w1 /\
   callbacks run = callbacks before ++ called callback failed).
Proof.
  exact (monitorDownload_stops_on_complete_or_error
           (set_running a_fresh true) w_fresh _ "2089b05ecca3d829"
           (Some (CbReturn : DownloadCallback))
           [MTick 8 (status_reply (status_of "active" "" "" []) "8")] [MDone] 9
           (status_reply (status_of "error" "3" "Resource was not found" []) "9")
           _ eq_refl eq_refl).
Defined.

(** C4 as stated fails: a task reported as [removed] does not end the
    loop, which polls again on the next tick; and a task reported in
    [error] does not end it either when the callback has written another
    status through its pointer. *)
Lemma removed_status_keeps_polling :
  let st := status_of "removed" "" "" [] in
  let run := monitorDownload (set_running a_fresh true) w_fresh "2089b05ecca3d829" None
               [MTick 8 (status_reply st "8"); MTick 9 (status_reply st "9")] in
  let failed := status_of "error" "1" "unknown error" [] in
  let relabelled :=
    monitorDownload (set_running a_fresh true) w_fresh "2089b05ecca3d829"
                    (Some (overwrite "active" ""))
                    [MTick 8 (status_reply failed "8"); MTick 9 (status_reply failed "9")] in
  outcome run = None /\
  pending run = [] /\
  map (fun q => req_ID (snd q)) (requests (world_after run)) = ["8"; "9"]%string /\
  outcome relabelled = None /\
  callbacks relabelled = [failed; failed] /\
  map (fun q => req_ID (snd q)) (requests (world_after relabelled))
  = ["8"; "9"]%string.
Proof. repeat split. Qed.

(** C5 (as the code has it).  When the status is [error] as the [switch]
    reads it, the call returns the empty path and an error whose text is the
    fixed prefix followed by the errorMessage of that status, unchanged; the
    errorCode has no part in it.  With no callback, or a callback that does
    not alter the status, that is the status and the errorMessage the engine
    reported; otherwise it is the status as the callback left it.  The loop
    ends on that turn, after the one request of the turn: later turns are
    never taken. *)
Theorem monitorDownload_error_status
        (a : Aria2) (w w1 : World) (gid : string)
        (callback : option DownloadCallback) (pre post : list monEvent)
        (now : Z) (x : exchange) (status : DownloadStatus) :
  let before := monitorDownload a w gid callback pre in
  let run := monitorDownload a w gid callback (pre ++ MTick now x :: post) in
  let failure (st : DownloadStatus) := Errorf ("下载出错: " ++ ErrorMessage st) in
  let ended (st : DownloadStatus) :=
    mkRun (Some (Return "" (Some (failure st))))
          (callbacks before ++ called callback status) w1 post in
  outcome before = None ->
  TellStatus a (world_after before) now x gid = (inl status, w1) ->
  requests w1
  = requests (world_after before) ++ [tellStatus_request a gid now] /\
  (passive callback -> Status status = "error"%string -> run = ended status) /\
  (forall status',
      run_callback callback status = CbReturn status' ->
      Status status' = "error"%string -> run = ended status') /\
  (forall st,
      Error (failure st) = ("下载出错: " ++ ErrorMessage st)%string /\
      Contains (Error (failure st)) (ErrorMessage st) = true).
Proof.
  intros before run failure ended Hpre HT.
  assert (Hgen : forall status',
             run_callback callback status = CbReturn status' ->
             Status status' = "error"%string -> run = ended status').
  { intros status' HC HS. subst run ended failure.
    rewrite (monitorDownload_app _ _ _ _ _ _ Hpre). fold before.
    cbn zeta. cbn [monitorDownload].
    rewrite (monitor_iter_status _ _ _ _ _ _ _ _ _ HT HC), HS.
    reflexivity. }
  split; [now rewrite (TellStatus_sent _ _ _ _ _ _ _ HT)|].
  split; [|split; [exact Hgen|]].
  - intros Hp HS. apply Hgen; [now apply run_callback_passive|exact HS].
  - intros st. split; [reflexivity|].
    unfold failure. cbn [Error]. apply Contains_app_r, Contains_self.
Qed.

(** The engine reports error 3 on the first poll of a loop with a callback
    that leaves the status alone. *)
Lemma monitorDownload_error_status_witness :
  let a := set_running a_fresh true in
  let gid := "2089b05ecca3d829"%string in
  let callback := Some (CbReturn : DownloadCallback) in
  let st := status_of "error" "3" "Resource was not found" [] in
  let w1 := log_request w_fresh (rpcURL a)
              (mkRequest "2.0" "aria2.tellStatus" [PString gid] (Itoa 8)) in
  let run := monitorDownload a w_fresh gid callback
               ([] ++ MTick 8 (status_reply st "8") :: [MDone]) in
  let failure (s : DownloadStatus) := Errorf ("下载出错: " ++ ErrorMessage s) in
  let ended (s : DownloadStatus) :=
    mkRun (Some (Return "" (Some (failure s)))) ([] ++ called callback st) w1 [MDone] in
  requests w1 = requests w_fresh ++ [tellStatus_request a gid 8] /\
  (passive callback -> Status st = "error"%string -> run = ended st) /\
  (forall status',
      run_callback callback st = CbReturn status' ->
      Status status' = "error"%string -> run = ended status') /\
  (forall s,
      Error (failure s) = ("下载出错: " ++ ErrorMessage s)%string /\
      Contains (Error (failure s)) (ErrorMessage s) = true).
Proof.
  exact (monitorDownload_error_status
           (set_running a_fresh true) w_fresh _ "2089b05ecca3d829"
           (Some (CbReturn : DownloadCallback)) [] [MDone] 8
           (status_reply (status_of "error" "3" "Resource was not found" []) "8")
           _ eq_refl eq_refl).
Defined.

(** C5 as stated fails: the engine reports errorCode 24, and the returned
    error does not contain it; and when the callback has written another
    message through its pointer, the returned error carries that message
    and not the one the engine reported. *)
Lemma error_text_lacks_errorCode :
  let st := status_of "error" "24" "Authorization failed." [] in
  let run := monitorDownload (set_running a_fresh true) w_fresh "2089b05ecca3d829" None
               [MTick 8 (status_reply st "8")] in
  let rewritten :=
    monitorDownload (set_running a_fresh true) w_fresh "2089b05ecca3d829"
                    (Some (overwrite "error" "disk full"))
                    [MTick 8 (status_reply st "8")] in
  outcome run = Some (Return "" (Some (Errorf "下载出错: Authorization failed."))) /\
  Contains (Error (Errorf "下载出错: Authorization failed.")) (ErrorCode st) = false /\
  outcome rewritten = Some (Return "" (Some (Errorf "下载出错: disk full"))) /\
  Contains (Error (Errorf "下载出错: disk full")) (ErrorMessage st) = false.
Proof. repeat split. Qed.

(** The end-to-end example: the engine reports [active], then [complete]
    with one file; the callback sees both statuses and the path comes
    back. *)
Example Download_example :
  let active := status_of "active" "" "" [] in
  let complete := status_of "complete" "" "" [mkFile "/tmp/file.bin"] in
  let env := mkDownloadEnv env_ready 7
               (Envelope (mkResponse "2.0" (RawText "2089b05ecca3d829") None "7"))
               [MTick 8 (status_reply active "8"); MTick 9 (status_reply complete "9")] in
  let run := fst (Download a_fresh w_fresh env "https://example.test/file.bin" "" ""
                           (Some CbReturn)) in
  outcome run = Some (Return "/tmp/file.bin" None) /\
  callbacks run = [active; complete].
Proof. split; reflexivity. Qed.

(** A task reported [complete] with at least one file ends the call with
    the path of the first file and no error. *)
Lemma monitorDownload_complete_first_file
      (a : Aria2) (w w1 : World) (gid : string)
      (callback : option DownloadCallback) (pre post : list monEvent)
      (now : Z) (x : exchange) (status status' : DownloadStatus)
      (f : File) (fs : list File) :
  let before := monitorDownload a w gid callback pre in
  outcome before = None ->
  TellStatus a (world_after before) now x gid = (inl status, w1) ->
  run_callback callback status = CbReturn status' ->
  Status status' = "complete"%string ->
  Files status' = f :: fs ->
  monitorDownload a w gid callback (pre ++ MTick now x :: post)
  = mkRun (Some (Return (Path f) None))
          (callbacks before ++ called callback status) w1 post.
Proof.
  intros before Hpre HT HC HS HF.
  rewrite (monitorDownload_app _ _ _ _ _ _ Hpre). fold before.
  cbn zeta. cbn [monitorDownload].
  rewrite (monitor_iter_status _ _ _ _ _ _ _ _ _ HT HC), HS, HF.
  reflexivity.
Qed.

(** C1, at a task reported [complete] with an empty list of files: the
    call does not return an error, it panics on the index. *)
Lemma Download_complete_without_files_panics :
  let active := status_of "active" "" "" [] in
  let complete := status_of "complete" "" "" [] in
  let env := mkDownloadEnv env_ready 7
               (Envelope (mkResponse "2.0" (RawText "2089b05ecca3d829") None "7"))
               [MTick 8 (status_reply active "8"); MTick 9 (status_reply complete "9")] in
  outcome (fst (Download a_fresh w_fresh env "https://example.test/file.bin" "" "" None))
  = Some (Panic "index out of range [0] with length 0").
Proof. reflexivity. Qed.

(** ** Cancellation *)

Lemma waitForRPC_cancelled (a : Aria2) (w : World) (evs : list waitEvent) :
  waitForRPC a w evs = Some errCancelled ->
  ctx_done w (ctx a) = true /\ In WDone evs.
Proof.
  induction evs as [|[[|]|] evs IH]; simpl; try discriminate.
  - intros H. destruct (IH H). auto.
  - destruct (ctx_done w (ctx a)); [auto|].
    intros H. destruct (IH H). auto.
Qed.

Lemma monitor_iter_cancelled (a : Aria2) (w : World) (gid : string)
      (callback : option DownloadCallback) (ev : monEvent) :
  fst (fst (monitor_iter a w gid callback ev)) = Break (Return "" (Some errCancelled))
  <-> ev = MDone /\ ctx_done w (ctx a) = true.
Proof.
  split.
  - destruct ev as [now x|]; simpl.
    + unfold TellStatus, Call. simpl.
      destruct (NewRequest a); [discriminate|].
      destruct x as [e|e|e|r]; try discriminate.
      destruct (resp_Error r); [discriminate|].
      destruct (unmarshal_status (Result r)) as [st|e]; [|discriminate].
      destruct (run_callback callback st) as [st'|v]; [|discriminate]. simpl.
      destruct (String.eqb (Status st') "complete").
      * destruct (Files st'); discriminate.
      * destruct (String.eqb (Status st') "error"); discriminate.
    + destruct (ctx_done w (ctx a)); [auto|discriminate].
  - intros [-> H]. simpl. now rewrite H.
Qed.

Lemma run_cancelled (gid : string) (callback : option DownloadCallback)
      (acts : list action) (s : System) :
  cancelled (sys_w (run gid callback s acts)) = cancelled (sys_w s).
Proof. now destruct (run_frame gid callback acts s) as (_ & _ & _ & H & _). Qed.

Lemma run_app (gid : string) (callback : option DownloadCallback)
      (acts acts' : list action) (s : System) :
  run gid callback s (acts ++ acts')
  = run gid callback (run gid callback s acts) acts'.
Proof. apply fold_left_app. Qed.

(** From the start of the program on, no context is cancelled and the loop
    in flight never ends with the cancellation error. *)
Lemma run_never_cancelled (gid : string) (callback : option DownloadCallback)
      (acts : list action) (s : System) :
  cancelled (sys_w s) = [] ->
  sys_loop s <> Some (Return "" (Some errCancelled)) ->
  sys_loop (run gid callback s acts) <> Some (Return "" (Some errCancelled)).
Proof.
  revert s. induction acts as [|act acts IH] using rev_ind; intros s Hc Hl;
    [exact Hl|].
  rewrite run_app. set (s1 := run gid callback s acts).
  assert (Hc1 : cancelled (sys_w s1) = []) by (subst s1; now rewrite run_cancelled).
  assert (Hl1 := IH s Hc Hl). fold s1 in Hl1.
  unfold run. simpl. destruct s1 as [a w l]. simpl in *.
  destruct act as [env|fault|fault|now x m ps|env u d o|ev]; simpl.
  - now destruct (Start a w env) as [[e a1] w1].
  - now destruct (Stop a w fault) as [[e a1] w1].
  - now destruct (monitor a w fault) as [a1 w1].
  - now destruct (Call a w now x m ps) as [r w1].
  - now destruct (Download a w env u d o callback) as [r a1].
  - destruct l as [r|]; [exact Hl1|].
    pose proof (proj1 (monitor_iter_cancelled a w gid callback ev)) as H.
    destruct (monitor_iter a w gid callback ev) as [[[|r] cbs] w1]; simpl in *;
      [discriminate|].
    intros [= ->]. destruct (H eq_refl) as [_ Hd].
    unfold ctx_done in Hd. rewrite Hc1 in Hd. discriminate.
Qed.

(** The cancel function is stored and never called.  [Stop] marks the
    supervisor not running and touches neither the lifecycle context nor its
    cancel function.  A turn of the polling loop ends with the cancellation
    error exactly when the runtime takes the Done case of a context that is
    cancelled, and the readiness wait of [Start] fails with it only in that
    case too.  Since no operation of the program cancels a context, from the
    construction of the supervisor on no context is ever cancelled and a
    polling loop in flight never ends with the cancellation error, whatever
    is stopped or started. *)
Theorem cancellation_only_by_context :
  (forall a w fault,
      let '(_, a', w') := Stop a w fault in
      running a' = false /\ ctx a' = ctx a /\ cancel a' = cancel a /\
      cancelled w' = cancelled w) /\
  (forall a w gid callback ev,
      fst (fst (monitor_iter a w gid callback ev))
      = Break (Return "" (Some errCancelled))
      <-> ev = MDone /\ ctx_done w (ctx a) = true) /\
  (forall a w evs,
      waitForRPC a w evs = Some errCancelled ->
      ctx_done w (ctx a) = true /\ In WDone evs) /\
  (forall fuel held a0 w0 gid callback acts,
      newDaemon fuel (world0 held) = Some (a0, w0) ->
      let s := run gid callback (mkSystem a0 w0 None) acts in
      cancelled (sys_w s) = [] /\
      sys_loop s <> Some (Return "" (Some errCancelled))).
Proof.
  split; [|split; [|split]].
  - intros a w fault.
    pose proof (Stop_running a w fault) as Hr.
    destruct (Stop_frame a w fault) as (_ & _ & _ & Hc & _).
    assert (Hk : ctx (snd (fst (Stop a w fault))) = ctx a /\
                 cancel (snd (fst (Stop a w fault))) = cancel a).
    { unfold Stop. destruct a as [pt rn [c|] cx cn tm]; simpl; [|auto].
      destruct (Process c) as [p|]; [|auto].
      now destruct (Kill w p fault) as [[e|] w1]. }
    destruct (Stop a w fault) as [[e a1] w1]; simpl in *. tauto.
  - apply monitor_iter_cancelled.
  - apply waitForRPC_cancelled.
  - intros fuel held a0 w0 gid callback acts Hnew s.
    assert (Hc0 : cancelled w0 = []).
    { now destruct (newDaemon_init fuel held a0 w0 Hnew) as (_ & _ & _ & H & _). }
    split.
    + subst s. now rewrite run_cancelled.
    + apply run_never_cancelled; [exact Hc0|discriminate].
Qed.

(** C2, at a running supervisor with a polling loop in flight when [Stop]
    is called: the supervisor is marked stopped and its subprocess killed,
    but the context is not cancelled; the loop cannot take the Done case
    and is still polling; it ends on the next tick with the error of the
    request that found the engine gone, not with the cancellation error. *)
Lemma Stop_leaves_polling_loop_running :
  let gid := "2089b05ecca3d829"%string in
  let refused := DoFails (Foreign "connection refused") in
  let s0 := run gid None (mkSystem a_fresh w_fresh None) [ActStart env_ready] in
  let s1 := run gid None s0 [ActStop None; ActPoll MDone] in
  let s2 := run gid None s1 [ActPoll (MTick 8 refused); ActPoll MDone] in
  running (sys_a s0) = true /\
  running (sys_a s1) = false /\
  owns_live (sys_a s1) (sys_w s1) = false /\
  ctx_done (sys_w s1) (ctx (sys_a s1)) = false /\
  sys_loop s1 = None /\
  sys_loop s2 = Some (Return "" (Some (Wrapf "HTTP请求失败: " (Foreign "connection refused")))).
Proof. repeat split. Qed.

(** The Done case taken on a cancelled context ends a turn with the
    cancellation error; a supervisor that is started and stopped has no
    cancelled context and its loop has not ended that way. *)
Lemma cancellation_only_by_context_witness :
  (let w := mkWorld [] [6800] 1%nat [0%nat] 0%nat [] [] [] in
   fst (fst (monitor_iter a_fresh w "2089b05ecca3d829" None MDone))
   = Break (Return "" (Some errCancelled))) /\
  (let s := run "2089b05ecca3d829" None (mkSystem a_fresh w_fresh None)
                [ActStart env_ready; ActStop None; ActPoll MDone] in
   cancelled (sys_w s) = [] /\
   sys_loop s <> Some (Return "" (Some errCancelled))).
Proof.
  destruct cancellation_only_by_context as (_ & Hiter & _ & Hrun).
  split.
  - apply Hiter. split; reflexivity.
  - apply (Hrun 1%nat [] a_fresh w_fresh). reflexivity.
Defined.

(** * Further properties of the package *)

(** ** Start, Stop and the watcher *)

Lemma waitForRPC_dialled (a : Aria2) (w : World) (evs : list waitEvent) :
  waitForRPC a w evs = None -> dialled evs = true.
Proof.
  induction evs as [|[[|]|] evs IH]; simpl; try discriminate; auto.
  destruct (ctx_done w (ctx a)); [discriminate|exact IH].
Qed.

(** What a successful [Start] has done. *)
Lemma Start_success_inv (a a1 : Aria2) (w w1 : World) (env : StartEnv) :
  Start a w env = (None, a1, w1) ->
  exists binaryPath,
    running a = false /\ extract env = inl binaryPath /\ launch env = None /\
    dialled (rpc_wait env) = true /\
    a1 = mkAria2 (port a) true
                 (Some (mkCmd binaryPath (buildArgs a) (next_ctx w) true
                              (Some (next_pid w))))
                 (next_ctx w) (next_ctx w) (httpClient_Timeout a) /\
    w1 = snd (spawn (snd (WithCancel w)) binaryPath (buildArgs a)).
Proof.
  unfold Start. destruct (running a) eqn:Hr; [discriminate|].
  destruct (extract env) as [binaryPath|err] eqn:He; [|discriminate].
  simpl. destruct (launch env) as [err|] eqn:Hl; [discriminate|]. simpl.
  destruct (waitForRPC _ _ (rpc_wait env)) as [err|] eqn:Hw; [discriminate|].
  intros [= <- <-]. exists binaryPath.
  apply waitForRPC_dialled in Hw. repeat split; auto.
Qed.

Lemma mem_nat_head (p : nat) (l : list nat) : mem_nat p (p :: l) = true.
Proof. unfold mem_nat. simpl. now rewrite Nat.eqb_refl. Qed.

(** X1. A second [Start] after a successful one fails with the
    already-running error and changes neither the supervisor nor the world:
    no second subprocess is spawned. *)
Theorem Start_again_fails (a a1 : Aria2) (w w1 : World) (env env' : StartEnv) :
  Start a w env = (None, a1, w1) ->
  Start a1 w1 env' = (Some (Errorf "aria2c已经运行"), a1, w1).
Proof.
  intros H. destruct (Start_success_inv _ _ _ _ _ H) as (bp & _ & _ & _ & _ & -> & _).
  reflexivity.
Qed.

Lemma Start_again_fails_witness :
  Start (snd (fst (Start a_fresh w_fresh env_ready)))
        (snd (Start a_fresh w_fresh env_ready)) env_silent
  = (Some (Errorf "aria2c已经运行"),
     snd (fst (Start a_fresh w_fresh env_ready)),
     snd (Start a_fresh w_fresh env_ready)).
Proof.
  exact (Start_again_fails a_fresh _ w_fresh _ env_ready env_silent eq_refl).
Defined.

(** X2. When [Start] returns no error, the supervisor was not running
    and is now marked running on the unchanged port; it holds the handle of
    the subprocess this call launched, the one launch the call added, made
    with [buildArgs]; and some dial of the control port succeeded before the
    timeout.  Nothing but that dial is checked of the subprocess. *)
Theorem Start_success_state (a a1 : Aria2) (w w1 : World) (env : StartEnv) :
  Start a w env = (None, a1, w1) ->
  running a = false /\
  running a1 = true /\
  port a1 = port a /\
  handle a1 = Some (next_pid w) /\
  (exists binaryPath,
      extract env = inl binaryPath /\
      spawned w1 = spawned w ++ [(binaryPath, buildArgs a)]) /\
  dialled (rpc_wait env) = true.
Proof.
  intros H.
  destruct (Start_success_inv _ _ _ _ _ H) as (bp & Hr & He & _ & Hd & -> & ->).
  repeat split; auto.
  exists bp. auto.
Qed.

Lemma Start_success_state_witness :
  let a1 := snd (fst (Start a_fresh w_fresh env_ready)) in
  let w1 := snd (Start a_fresh w_fresh env_ready) in
  running a_fresh = false /\
  running a1 = true /\
  port a1 = port a_fresh /\
  handle a1 = Some (next_pid w_fresh) /\
  (exists binaryPath,
      extract env_ready = inl binaryPath /\
      spawned w1 = spawned w_fresh ++ [(binaryPath, buildArgs a_fresh)]) /\
  dialled (rpc_wait env_ready) = true.
Proof.
  exact (Start_success_state a_fresh _ w_fresh _ env_ready eq_refl).
Defined.

(** X3. On a context that is not cancelled the readiness wait succeeds
    exactly when one of the dials made before the timeout succeeds, and
    fails with the timeout error otherwise. *)
Theorem waitForRPC_not_cancelled (a : Aria2) (w : World) (evs : list waitEvent) :
  ctx_done w (ctx a) = false ->
  waitForRPC a w evs = if dialled evs then None else Some errTimeout.
Proof.
  intros Hc. induction evs as [|[[|]|] evs IH]; simpl; auto.
  now rewrite Hc.
Qed.

Lemma waitForRPC_not_cancelled_witness :
  waitForRPC a_fresh w_fresh [WTick false; WDone; WTick true; WTick false]
  = if dialled [WTick false; WDone; WTick true; WTick false]
    then None else Some errTimeout.
Proof.
  exact (waitForRPC_not_cancelled a_fresh w_fresh
           [WTick false; WDone; WTick true; WTick false] eq_refl).
Defined.

(** X4. When the subprocess cannot be launched, [Start] fails with the
    launch error's text, the supervisor stays not running, nothing is
    spawned and no process is alive that was not before; the handle field
    is overwritten by the command that never started, so no handle is held
    afterwards, whatever was held before. *)
Theorem Start_launch_failure (a : Aria2) (w : World) (env : StartEnv)
        (binaryPath : string) (err : error) :
  running a = false ->
  extract env = inl binaryPath ->
  launch env = Some err ->
  let '(e, a1, w1) := Start a w env in
  e = Some (Errorf ("aria2c 进程启动失败: " ++ Error err)) /\
  running a1 = false /\
  port a1 = port a /\
  handle a1 = None /\
  owns_live a1 w1 = false /\
  spawned w1 = spawned w /\ live w1 = live w /\ requests w1 = requests w.
Proof.
  intros Hr He Hl. unfold Start. rewrite Hr, He. simpl. rewrite Hl.
  simpl. repeat split; auto.
Qed.

Lemma Start_launch_failure_witness :
  let env := mkStartEnv (inl "aria2c.exe"%string)
                        (Some (Foreign "exec: file not found")) [] in
  let '(e, a1, w1) := Start a_fresh w_fresh env in
  e = Some (Errorf ("aria2c 进程启动失败: " ++ Error (Foreign "exec: file not found"))) /\
  running a1 = false /\
  port a1 = port a_fresh /\
  handle a1 = None /\
  owns_live a1 w1 = false /\
  spawned w1 = spawned w_fresh /\ live w1 = live w_fresh /\
  requests w1 = requests w_fresh.
Proof.
  exact (Start_launch_failure a_fresh w_fresh
           (mkStartEnv (inl "aria2c.exe"%string)
                       (Some (Foreign "exec: file not found")) [])
           "aria2c.exe" (Foreign "exec: file not found") eq_refl eq_refl eq_refl).
Defined.

(** X5. [Stop] on the supervisor a successful [Start] left, whatever has
    become of the world since: if the subprocess that [Start] launched is
    still alive and the system accepts the kill, [Stop] returns no error and
    ends it, so that no live subprocess is owned; if that subprocess has
    already gone, [Stop] returns the error of the kill.  Either way the
    supervisor is marked stopped. *)
Theorem Start_then_Stop (a a1 : Aria2) (w w1 : World) (env : StartEnv) :
  Start a w env = (None, a1, w1) ->
  forall w2 : World,
    (is_live w2 (next_pid w) = true ->
     Stop a1 w2 None
     = (None, set_running a1 false, end_process w2 (next_pid w)) /\
     owns_live (set_running a1 false) (end_process w2 (next_pid w)) = false) /\
    (is_live w2 (next_pid w) = false ->
     Stop a1 w2 None
     = (Some (Wrapf "failed to kill aria2c process: "
                    (Foreign "os: process already finished")),
        set_running a1 false, w2)) /\
    running (set_running a1 false) = false.
Proof.
  intros H w2.
  destruct (Start_success_inv _ _ _ _ _ H) as (bp & _ & _ & _ & _ & -> & _).
  split; [|split; [|reflexivity]]; intros Hl.
  - split.
    + unfold Stop. cbn [set_running cmd Process running port ctx cancel
                        httpClient_Timeout].
      unfold Kill. now rewrite Hl.
    + unfold owns_live, handle. simpl. apply is_live_end_process.
  - unfold Stop. cbn [set_running cmd Process running port ctx cancel
                      httpClient_Timeout].
    unfold Kill. now rewrite Hl.
Qed.

Lemma Start_then_Stop_witness :
  let a1 := snd (fst (Start a_fresh w_fresh env_ready)) in
  let w1 := snd (Start a_fresh w_fresh env_ready) in
  let gone := end_process w1 (next_pid w_fresh) in
  (Stop a1 w1 None
   = (None, set_running a1 false, end_process w1 (next_pid w_fresh)) /\
   owns_live (set_running a1 false) (end_process w1 (next_pid w_fresh)) = false) /\
  Stop a1 gone None
  = (Some (Wrapf "failed to kill aria2c process: "
                 (Foreign "os: process already finished")),
     set_running a1 false, gone).
Proof.
  split.
  - exact (proj1 (Start_then_Stop a_fresh _ w_fresh _ env_ready eq_refl
                    (snd (Start a_fresh w_fresh env_ready))) eq_refl).
  - exact (proj1 (proj2 (Start_then_Stop a_fresh _ w_fresh _ env_ready eq_refl
                           (end_process (snd (Start a_fresh w_fresh env_ready))
                                        (next_pid w_fresh)))) eq_refl).
Defined.

(** X6. When the system refuses to kill a subprocess that is alive, [Stop]
    returns the wrapped error and still marks the supervisor stopped, while
    the subprocess stays alive and its handle stays held. *)
Theorem Stop_kill_refused (a : Aria2) (w : World) (p : pid) (e : error) :
  handle a = Some p ->
  is_live w p = true ->
  Stop a w (Some e)
  = (Some (Wrapf "failed to kill aria2c process: " e), set_running a false, w) /\
  running (set_running a false) = false /\
  owns_live (set_running a false) w = true.
Proof.
  unfold handle, owns_live, handle, Stop.
  destruct a as [pt rn [c|] cx cn tm]; simpl; [|discriminate].
  intros HP Hl. rewrite HP. unfold Kill. rewrite Hl. auto.
Qed.

Lemma Stop_kill_refused_witness :
  let a1 := snd (fst (Start a_fresh w_fresh env_ready)) in
  let w1 := snd (Start a_fresh w_fresh env_ready) in
  Stop a1 w1 (Some (Foreign "Access is denied."))
  = (Some (Wrapf "failed to kill aria2c process: " (Foreign "Access is denied.")),
     set_running a1 false, w1) /\
  running (set_running a1 false) = false /\
  owns_live (set_running a1 false) w1 = true.
Proof.
  exact (Stop_kill_refused (snd (fst (Start a_fresh w_fresh env_ready)))
           (snd (Start a_fresh w_fresh env_ready))
           0%nat (Foreign "Access is denied.") eq_refl eq_refl).
Defined.

(** X7. When the subprocess of a started supervisor ends, the watcher
    marks the supervisor stopped and no live subprocess is owned; a new
    [Start] that finds the port answering then succeeds, marks the
    supervisor running and holds the handle of a new subprocess, different
    from the first. *)
Theorem watcher_then_restart (a a1 : Aria2) (w w1 : World) (env : StartEnv)
        (fault : option error) (binaryPath : string) (rest : list waitEvent) :
  Start a w env = (None, a1, w1) ->
  let '(a2, w2) := monitor a1 w1 fault in
  running a2 = false /\
  owns_live a2 w2 = false /\
  exists a3 w3,
    Start a2 w2 (mkStartEnv (inl binaryPath) None (WTick true :: rest))
    = (None, a3, w3) /\
    running a3 = true /\
    handle a3 = Some (S (next_pid w)) /\
    handle a3 <> handle a1.
Proof.
  intros H.
  destruct (Start_success_inv _ _ _ _ _ H) as (bp & _ & _ & _ & _ & -> & ->).
  unfold monitor. cbn [cmd Process].
  unfold Stop. cbn [set_running cmd Process running port ctx cancel
                    httpClient_Timeout].
  unfold Kill. rewrite is_live_end_process.
  split; [reflexivity|]. split.
  - unfold owns_live, handle. cbn [cmd Process]. apply is_live_end_process.
  - eexists. eexists. split; [reflexivity|].
    split; [reflexivity|]. split; [reflexivity|].
    unfold handle. simpl. intros [= E]. lia.
Qed.

Lemma watcher_then_restart_witness :
  let '(a2, w2) := monitor (snd (fst (Start a_fresh w_fresh env_ready)))
                           (snd (Start a_fresh w_fresh env_ready)) None in
  running a2 = false /\
  owns_live a2 w2 = false /\
  exists a3 w3,
    Start a2 w2 (mkStartEnv (inl "aria2c.exe"%string) None (WTick true :: []))
    = (None, a3, w3) /\
    running a3 = true /\
    handle a3 = Some (S (next_pid w_fresh)) /\
    handle a3 <> handle (snd (fst (Start a_fresh w_fresh env_ready))).
Proof.
  exact (watcher_then_restart a_fresh _ w_fresh _ env_ready None
           "aria2c.exe" [] eq_refl).
Defined.

(** ** Calls and polls leave processes alone *)

Lemma only_requests_refl (w : World) : only_requests w w.
Proof. repeat split. Qed.

Lemma only_requests_trans (w1 w2 w3 : World) :
  only_requests w1 w2 -> only_requests w2 w3 -> only_requests w1 w3.
Proof. unfold only_requests. intuition congruence. Qed.

Lemma Call_only_requests (a : Aria2) (w : World) (now : Z) (x : exchange)
      (method : string) (params : list param) :
  only_requests w (snd (Call a w now x method params)).
Proof.
  unfold Call.
  destruct (Marshal _); [apply only_requests_refl|].
  destruct (NewRequest a); [apply only_requests_refl|].
  destruct x as [e|e|e|r]; [| | |destruct (resp_Error r)];
    unfold only_requests; simpl; repeat split; reflexivity.
Qed.

Lemma AddUri_only_requests (a : Aria2) (w : World) (now : Z) (x : exchange)
      (uri dir out : string) :
  only_requests w (snd (AddUri a w now x uri dir out)).
Proof.
  unfold AddUri.
  pose proof (Call_only_requests a w now x "aria2.addUri"
                [PStrings [uri]; POptions [("dir", dir); ("out", out)]%string]) as H.
  destruct (Call _ _ _ _ _ _) as [[m|e] w1]; simpl in *; auto.
  destruct (unmarshal_string m); auto.
Qed.

Lemma TellStatus_only_requests (a : Aria2) (w : World) (now : Z) (x : exchange)
      (gid : string) :
  only_requests w (snd (TellStatus a w now x gid)).
Proof.
  unfold TellStatus.
  pose proof (Call_only_requests a w now x "aria2.tellStatus" [PString gid]) as H.
  destruct (Call _ _ _ _ _ _) as [[m|e] w1]; simpl in *; auto.
  destruct (unmarshal_status m); auto.
Qed.

Lemma monitor_iter_only_requests (a : Aria2) (w : World) (gid : string)
      (callback : option DownloadCallback) (ev : monEvent) :
  only_requests w (snd (monitor_iter a w gid callback ev)).
Proof.
  unfold monitor_iter. destruct ev as [now x|].
  - pose proof (TellStatus_only_requests a w now x gid) as H.
    destruct (TellStatus a w now x gid) as [[st|e] w1]; simpl in *; auto.
    destruct (run_callback callback st); auto.
  - destruct (ctx_done w (ctx a)); apply only_requests_refl.
Qed.

Lemma monitorDownload_only_requests (a : Aria2) (gid : string)
      (callback : option DownloadCallback) (evs : list monEvent) :
  forall w, only_requests w (world_after (monitorDownload a w gid callback evs)).
Proof.
  induction evs as [|ev rest IH]; intros w; simpl.
  - apply only_requests_refl.
  - pose proof (monitor_iter_only_requests a w gid callback ev) as H.
    destruct (monitor_iter a w gid callback ev) as [[[|r] cbs] w1]; simpl in *; auto.
    eapply only_requests_trans; eauto.
Qed.

(** ** Bookkeeping of subprocesses *)

Lemma supervised_only_requests (a : Aria2) (w w' : World) :
  supervised a w -> only_requests w w' -> supervised a w'.
Proof.
  intros (H1 & H2 & H3 & H4) (_ & _ & _ & _ & Hn & Hl & Hs).
  unfold supervised. rewrite Hn, Hl, Hs. auto.
Qed.

Lemma Forall_lt_S (n : nat) (l : list nat) :
  Forall (fun q => (q < n)%nat) l -> Forall (fun q => (q < S n)%nat) l.
Proof. apply Forall_impl. intros; lia. Qed.

Lemma supervised_Start (a : Aria2) (w : World) (env : StartEnv) :
  supervised a w ->
  supervised (snd (fst (Start a w env))) (snd (Start a w env)).
Proof.
  intros H. pose proof H as (H1 & H2 & H3 & H4). unfold Start.
  destruct (running a) eqn:Hr; [exact H|].
  destruct (extract env) as [bp|err]; [|exact H].
  simpl. destruct (launch env) as [err|]; simpl.
  - unfold supervised, handle; simpl. rewrite Hr.
    repeat split; auto; intros; discriminate.
  - assert (Hs : forall b,
               supervised
                 (mkAria2 (port a) b
                    (Some (mkCmd bp (buildArgs a) (next_ctx w) true (Some (next_pid w))))
                    (next_ctx w) (next_ctx w) (httpClient_Timeout a))
                 (snd (spawn (snd (WithCancel w)) bp (buildArgs a)))).
    { intros b. unfold supervised, handle; simpl. repeat split.
      - rewrite length_app. simpl. lia.
      - intros p [= <-]. lia.
      - intros _. eauto.
      - constructor; [lia|]. now apply Forall_lt_S. }
    destruct (waitForRPC _ _ _); simpl; apply Hs.
Qed.

Lemma supervised_Stop (a : Aria2) (w : World) (fault : option error) :
  supervised a w ->
  supervised (snd (fst (Stop a w fault))) (snd (Stop a w fault)).
Proof.
  intros (H1 & H2 & H3 & H4).
  assert (Hs : forall w', next_pid w' = next_pid w -> spawned w' = spawned w ->
                          Forall (fun q => (q < next_pid w)%nat) (live w') ->
                          supervised (set_running a false) w').
  { intros w' Hn Hsp Hl. unfold supervised.
    rewrite Hn, Hsp. repeat split; auto. discriminate. }
  unfold Stop. change (cmd (set_running a false)) with (cmd a).
  destruct (cmd a) as [c|]; [|simpl; now apply Hs].
  destruct (Process c) as [p|]; [|simpl; now apply Hs].
  unfold Kill. destruct (is_live w p); [destruct fault|]; simpl;
    try (now apply Hs).
  apply Hs; auto. simpl.
  rewrite Forall_forall in *. intros q Hq. apply filter_In in Hq. apply H4, Hq.
Qed.

Lemma supervised_end_process (a : Aria2) (w : World) (p : pid) :
  supervised a w -> supervised a (end_process w p).
Proof.
  intros (H1 & H2 & H3 & H4). unfold supervised; simpl. repeat split; auto.
  rewrite Forall_forall in *. intros q Hq. apply filter_In in Hq. apply H4, Hq.
Qed.

Lemma supervised_monitor (a : Aria2) (w : World) (fault : option error) :
  supervised a w ->
  supervised (fst (monitor a w fault)) (snd (monitor a w fault)).
Proof.
  intros H. unfold monitor.
  destruct (cmd a) as [c|]; [|exact H].
  set (w1 := match Process c with Some p => end_process w p | None => w end).
  assert (H1 : supervised a w1)
    by (subst w1; destruct (Process c); auto using supervised_end_process).
  pose proof (supervised_Stop a w1 fault H1) as HS.
  now destruct (Stop a w1 fault) as [[e a1] w2].
Qed.

Lemma supervised_Download (a : Aria2) (w : World) (env : DownloadEnv)
      (url dir out : string) (callback : option DownloadCallback) :
  supervised a w ->
  supervised (snd (Download a w env url dir out callback))
             (world_after (fst (Download a w env url dir out callback))).
Proof.
  intros H. unfold Download, IsRunning.
  assert (HS : supervised
                 (snd (fst (if negb (running a) then Start a w (d_start env)
                            else (None, a, w))))
                 (snd (if negb (running a) then Start a w (d_start env)
                       else (None, a, w))))
    by (destruct (running a); simpl; auto using supervised_Start).
  destruct (if negb (running a) then Start a w (d_start env) else (None, a, w))
    as [[started a1] w1]; simpl in HS.
  destruct started as [err|]; [exact HS|].
  pose proof (AddUri_only_requests a1 w1 (d_now env) (d_add env) url dir out) as HA.
  destruct (AddUri a1 w1 (d_now env) (d_add env) url dir out) as [[g|err] w2];
    simpl in *.
  - eapply supervised_only_requests;
      [eapply supervised_only_requests; [exact HS|exact HA]|].
    apply monitorDownload_only_requests.
  - eapply supervised_only_requests; eauto.
Qed.

Lemma supervised_step (gid : string) (callback : option DownloadCallback)
      (s : System) (act : action) :
  supervised (sys_a s) (sys_w s) ->
  supervised (sys_a (step gid callback s act)) (sys_w (step gid callback s act)).
Proof.
  destruct s as [a w l]. simpl. intros H.
  destruct act as [env|fault|fault|now x m ps|env u d o|ev]; simpl.
  - pose proof (supervised_Start a w env H) as HS.
    now destruct (Start a w env) as [[e a1] w1].
  - pose proof (supervised_Stop a w fault H) as HS.
    now destruct (Stop a w fault) as [[e a1] w1].
  - pose proof (supervised_monitor a w fault H) as HS.
    now destruct (monitor a w fault) as [a1 w1].
  - pose proof (Call_only_requests a w now x m ps) as HC.
    destruct (Call a w now x m ps) as [r w1]; simpl in *.
    eapply supervised_only_requests; eauto.
  - pose proof (supervised_Download a w env u d o callback H) as HD.
    now destruct (Download a w env u d o callback) as [r a1].
  - destruct l as [r|]; [exact H|].
    pose proof (monitor_iter_only_requests a w gid callback ev) as HI.
    destruct (monitor_iter a w gid callback ev) as [[[|r] cbs] w1]; simpl in *;
      eapply supervised_only_requests; eauto.
Qed.

Lemma findAvailablePort_next_pid (fuel : nat) :
  forall (w w' : World) (p r : Z),
    findAvailablePort fuel w p = Some (r, w') -> next_pid w' = next_pid w.
Proof.
  induction fuel as [|fuel IH]; intros w w' p r H; simpl in H; [discriminate|].
  destruct (Listen_ok w p); [now inversion H|].
  apply IH in H. exact H.
Qed.

Lemma supervised_newDaemon (fuel : nat) (held : list Z) (a0 : Aria2) (w0 : World) :
  newDaemon fuel (world0 held) = Some (a0, w0) -> supervised a0 w0.
Proof.
  intros Hnew.
  destruct (newDaemon_init fuel held a0 w0 Hnew)
    as (Hf & Hr & Hc & _ & Hl & Hs & _).
  apply findAvailablePort_next_pid in Hf. simpl in Hf.
  unfold supervised, handle. rewrite Hf, Hs, Hl, Hc, Hr. simpl.
  repeat split; auto; discriminate.
Qed.

Lemma supervised_run (gid : string) (callback : option DownloadCallback)
      (acts : list action) :
  forall s, supervised (sys_a s) (sys_w s) ->
            supervised (sys_a (run gid callback s acts))
                       (sys_w (run gid callback s acts)).
Proof.
  unfold run. induction acts as [|act acts IH]; intros s H; simpl; [exact H|].
  apply IH. now apply supervised_step.
Qed.

(** X8. Through every sequence of starts, stops, subprocess exits, calls,
    downloads and polling turns after the construction of the supervisor:
    whenever the supervisor is marked running it holds the handle of a
    subprocess; a held handle and every live subprocess are among the
    launches the program made, each of which got its own process id. *)
Theorem running_holds_a_handle (fuel : nat) (held : list Z) (a0 : Aria2)
        (w0 : World) (gid : string) (callback : option DownloadCallback)
        (acts : list action) :
  newDaemon fuel (world0 held) = Some (a0, w0) ->
  let s := run gid callback (mkSystem a0 w0 None) acts in
  (running (sys_a s) = true -> exists p, handle (sys_a s) = Some p) /\
  (forall p, handle (sys_a s) = Some p ->
             (p < List.length (spawned (sys_w s)))%nat) /\
  Forall (fun q => (q < List.length (spawned (sys_w s)))%nat) (live (sys_w s)).
Proof.
  intros Hnew s.
  destruct (supervised_run gid callback acts (mkSystem a0 w0 None)
              (supervised_newDaemon _ _ _ _ Hnew)) as (H1 & H2 & H3 & H4).
  fold s in H1, H2, H3, H4. rewrite H1. auto.
Qed.

Lemma running_holds_a_handle_witness :
  let s := run "2089b05ecca3d829" None (mkSystem a_fresh w_fresh None)
               [ActStart env_silent; ActStart env_ready; ActExit None;
                ActStart env_ready; ActPoll MDone; ActStop None] in
  (running (sys_a s) = true -> exists p, handle (sys_a s) = Some p) /\
  (forall p, handle (sys_a s) = Some p ->
             (p < List.length (spawned (sys_w s)))%nat) /\
  Forall (fun q => (q < List.length (spawned (sys_w s)))%nat) (live (sys_w s)).
Proof.
  exact (running_holds_a_handle 1 [] a_fresh w_fresh "2089b05ecca3d829" None
           [ActStart env_silent; ActStart env_ready; ActExit None;
            ActStart env_ready; ActPoll MDone; ActStop None] eq_refl).
Defined.

(** ** More on the port scan and the construction *)

(** X9. Whatever port [findAvailablePort] returns could be bound when it
    was probed; the ports tried before it were all refused, there are fewer
    of them than the recursion depth, and the scan changes nothing but the
    log of probes. *)
Theorem findAvailablePort_sound (fuel : nat) :
  forall (w w' : World) (P r : Z),
    findAvailablePort fuel w P = Some (r, w') ->
    Listen_ok w r = true /\
    busy w' = busy w /\ live w' = live w /\ spawned w' = spawned w /\
    requests w' = requests w /\
    exists refused,
      probes w' = probes w ++ refused ++ [r] /\
      Forall (fun p => Listen_ok w p = false) refused /\
      (List.length refused < fuel)%nat.
Proof.
  induction fuel as [|fuel IH]; intros w w' P r H; simpl in H; [discriminate|].
  destruct (Listen_ok w P) eqn:HP.
  - inversion H; subst. repeat split; auto.
    exists []. simpl. repeat split; auto. lia.
  - apply IH in H.
    destruct H as (Hr & Hb & Hl & Hs & Hq & refused & Hp & Hf & Hn).
    repeat split; auto.
    exists (P :: refused). simpl in *. repeat split.
    + rewrite Hp. now rewrite <- app_assoc.
    + constructor; auto.
    + lia.
Qed.

Lemma findAvailablePort_sound_witness :
  Listen_ok (world0 [6800; 6801]) 6802 = true /\
  busy (log_probes (world0 [6800; 6801]) [6800; 6801; 6802]) = busy (world0 [6800; 6801]) /\
  live (log_probes (world0 [6800; 6801]) [6800; 6801; 6802]) = live (world0 [6800; 6801]) /\
  spawned (log_probes (world0 [6800; 6801]) [6800; 6801; 6802])
  = spawned (world0 [6800; 6801]) /\
  requests (log_probes (world0 [6800; 6801]) [6800; 6801; 6802])
  = requests (world0 [6800; 6801]) /\
  exists refused,
    probes (log_probes (world0 [6800; 6801]) [6800; 6801; 6802])
    = probes (world0 [6800; 6801]) ++ refused ++ [6802] /\
    Forall (fun p => Listen_ok (world0 [6800; 6801]) p = false) refused /\
    (List.length refused < 5)%nat.
Proof.
  exact (findAvailablePort_sound 5 (world0 [6800; 6801]) _ 6800 6802 eq_refl).
Defined.

(** X10. The scan has no upper bound of its own: started above the last
    valid port number it finds every port refused and goes on, so no
    recursion depth short of the integer range gives a result. *)
Theorem findAvailablePort_past_last_port (fuel : nat) :
  forall (w : World) (P : Z),
    65535 < P -> P + Z.of_nat fuel <= maxInt + 1 ->
    findAvailablePort fuel w P = None.
Proof.
  induction fuel as [|fuel IH]; intros w P HP Hf; [reflexivity|].
  simpl.
  assert (HL : Listen_ok w P = false).
  { unfold Listen_ok. replace (P <=? 65535) with false by (symmetry; apply Z.leb_gt; lia).
    now rewrite andb_false_r. }
  rewrite HL. destruct fuel as [|fuel']; [reflexivity|].
  unfold Go.add. rewrite wrap_in_range.
  - apply IH; lia.
  - unfold int_range, minInt, maxInt in *. lia.
Qed.

Lemma findAvailablePort_past_last_port_witness :
  findAvailablePort 1000 (world0 []) 65536 = None.
Proof.
  apply (findAvailablePort_past_last_port 1000 (world0 []) 65536).
  - lia.
  - unfold maxInt. lia.
Defined.

Lemma findAvailablePort_bindable (fuel : nat) :
  forall (w w' : World) (P r : Z),
    findAvailablePort fuel w P = Some (r, w') -> Listen_ok w r = true.
Proof.
  induction fuel as [|fuel IH]; intros w w' P r H; simpl in H; [discriminate|].
  destruct (Listen_ok w P) eqn:HP.
  - now inversion H; subst.
  - apply IH in H. exact H.
Qed.

(** X11. The supervisor [newDaemon] builds at program start is not running
    and holds no subprocess; its context is not cancelled; its port is a
    valid port number at or above 0 that could be bound when probed, so the
    URL of its calls is always well formed. *)
Theorem newDaemon_state (fuel : nat) (held : list Z) (a0 : Aria2) (w0 : World) :
  newDaemon fuel (world0 held) = Some (a0, w0) ->
  running a0 = false /\
  handle a0 = None /\
  ctx a0 = cancel a0 /\
  ctx_done w0 (ctx a0) = false /\
  Listen_ok (world0 held) (port a0) = true /\
  0 <= port a0 <= 65535 /\
  NewRequest a0 = None.
Proof.
  intros Hnew.
  destruct (newDaemon_init fuel held a0 w0 Hnew)
    as (Hf & Hr & Hc & Hcan & _ & _ & _).
  assert (Hk : ctx a0 = cancel a0).
  { unfold newDaemon in Hnew. simpl in Hnew.
    destruct (findAvailablePort fuel _ 6800) as [[p w2]|]; [|discriminate].
    now inversion Hnew. }
  pose proof (findAvailablePort_bindable _ _ _ _ _ Hf) as HL.
  change (Listen_ok (snd (WithCancel (world0 held))) (port a0))
    with (Listen_ok (world0 held) (port a0)) in HL.
  pose proof (Listen_ok_valid _ _ HL) as Hv.
  unfold handle, ctx_done, NewRequest. rewrite Hc, Hcan.
  repeat split; auto; try lia.
  replace (port a0 <? 0) with false by (symmetry; apply Z.ltb_ge; lia).
  reflexivity.
Qed.

Lemma newDaemon_state_witness :
  running a_fresh = false /\
  handle a_fresh = None /\
  ctx a_fresh = cancel a_fresh /\
  ctx_done w_fresh (ctx a_fresh) = false /\
  Listen_ok (world0 []) (port a_fresh) = true /\
  0 <= port a_fresh <= 65535 /\
  NewRequest a_fresh = None.
Proof.
  exact (newDaemon_state 1 [] a_fresh w_fresh eq_refl).
Defined.

(** ** The polling loop on the wire *)

Lemma NewRequest_ok (a : Aria2) : 0 <= port a -> NewRequest a = None.
Proof.
  intros H. unfold NewRequest.
  now replace (port a <? 0) with false by (symmetry; apply Z.ltb_ge; lia).
Qed.

(** One poll: one request, and a status exactly when the turn reports
    one. *)
Lemma TellStatus_poll (a : Aria2) (w : World) (now : Z) (x : exchange)
      (gid : string) :
  NewRequest a = None ->
  snd (TellStatus a w now x gid)
  = log_request w (rpcURL a)
                (mkRequest "2.0" "aria2.tellStatus" [PString gid] (Itoa now)) /\
  match fst (TellStatus a w now x gid) with
  | inl st => reported (MTick now x) = [st]
  | inr _ => reported (MTick now x) = []
  end.
Proof.
  intros HN. unfold TellStatus, Call. simpl. rewrite HN.
  destruct x as [e|e|e|r]; simpl; auto.
  destruct (resp_Error r); simpl; auto.
  destruct (unmarshal_status (Result r)); simpl; auto.
Qed.

Lemma requests_log_request (w : World) (url : string) (r : jsonRPCRequest) :
  requests (log_request w url r) = requests w ++ [(url, r)].
Proof. reflexivity. Qed.

(** The turns a run takes, the requests it posts and the statuses it hands
    to the callback. *)
Lemma monitorDownload_taken (a : Aria2) (gid : string)
        (callback : option DownloadCallback) (evs : list monEvent) :
  0 <= port a ->
  forall w,
    let run := monitorDownload a w gid callback evs in
    exists taken,
      evs = taken ++ pending run /\
      requests (world_after run)
      = requests w ++ map (tellStatus_request a gid) (tick_times taken) /\
      callbacks run
      = match callback with
        | Some _ => flat_map reported taken
        | None => []
        end /\
      (outcome run = None -> pending run = []).
Proof.
  intros Hp. apply NewRequest_ok in Hp.
  induction evs as [|ev rest IH]; intros w; cbn zeta.
  - exists []. simpl. rewrite app_nil_r. destruct callback; auto.
  - cbn [monitorDownload].
    assert (Hiter :
      exists cbs w1 it,
        monitor_iter a w gid callback ev = (it, cbs, w1) /\
        requests w1 = requests w ++ map (tellStatus_request a gid) (tick_times [ev]) /\
        cbs = match callback with Some _ => reported ev | None => [] end).
    { destruct ev as [now x|]; simpl.
      - destruct (TellStatus_poll a w now x gid Hp) as [Hw Hr].
        destruct (TellStatus a w now x gid) as [[st|e] w1]; simpl in Hw, Hr.
        + destruct (run_callback callback st) as [st'|v];
            eexists; eexists; eexists; (split; [reflexivity|]);
              rewrite Hw, Hr; (split; [reflexivity|]); now destruct callback.
        + eexists; eexists; eexists. split; [reflexivity|].
          rewrite Hw, Hr. split; [reflexivity|]. now destruct callback.
      - destruct (ctx_done w (ctx a));
          eexists; eexists; eexists; (split; [reflexivity|]);
            rewrite app_nil_r; (split; [reflexivity|]); now destruct callback. }
    destruct Hiter as (cbs & w1 & it & Hit & Hreq & Hcbs).
    rewrite Hit. destruct it as [|r].
    + destruct (IH w1) as (taken & Hev & Hrq & Hcb & Hout).
      exists (ev :: taken). cbn [outcome callbacks world_after pending].
      split; [simpl; now rewrite <- Hev|].
      split; [|split; [|exact Hout]].
      * rewrite Hrq, Hreq. rewrite <- app_assoc. f_equal.
        change (ev :: taken) with ([ev] ++ taken).
        unfold tick_times. rewrite flat_map_app, map_app. reflexivity.
      * rewrite Hcb, Hcbs. destruct callback; [|reflexivity].
        change (ev :: taken) with ([ev] ++ taken).
        rewrite flat_map_app. simpl. now rewrite app_nil_r.
    + exists [ev]. cbn [outcome callbacks world_after pending].
      split; [reflexivity|]. split; [exact Hreq|]. split; [|discriminate].
      rewrite Hcbs. destruct callback; [|reflexivity].
      simpl. now rewrite app_nil_r.
Qed.

(** X12. A run of the polling loop, on a supervisor with a valid port,
    takes a prefix of the select turns offered and leaves the rest alone;
    it posts exactly one tellStatus request for the task per tick taken, in
    order and with the clock reading as id, and none on other turns; and a
    callback, when one is given, is called exactly once per poll that was
    answered with a status, in poll order, with that status.  A run that has
    not ended has taken every turn. *)
Theorem monitorDownload_trace (a : Aria2) (gid : string)
        (callback : option DownloadCallback) (evs : list monEvent) :
  0 <= port a ->
  forall w,
    let run := monitorDownload a w gid callback evs in
    exists taken,
      evs = taken ++ pending run /\
      requests (world_after run)
      = requests w ++ map (tellStatus_request a gid) (tick_times taken) /\
      callbacks run
      = match callback with
        | Some _ => flat_map reported taken
        | None => []
        end /\
      (outcome run = None -> pending run = []).
Proof.
  intros Hp w run.
  destruct (monitorDownload_taken a gid callback evs Hp w) as (taken & H).
  exists taken. exact H.
Qed.

Lemma monitorDownload_trace_witness :
  let a := set_running a_fresh true in
  let gid := "2089b05ecca3d829"%string in
  let active := status_of "active" "" "" [] in
  let complete := status_of "complete" "" "" [mkFile "/tmp/file.bin"] in
  let evs := [MTick 8 (status_reply active "8"); MDone;
              MTick 9 (status_reply complete "9"); MTick 10 (status_reply active "10")] in
  let run := monitorDownload a w_fresh gid (Some CbReturn) evs in
  exists taken,
    evs = taken ++ pending run /\
    requests (world_after run)
    = requests w_fresh ++ map (tellStatus_request a gid) (tick_times taken) /\
    callbacks run = flat_map reported taken /\
    (outcome run = None -> pending run = []).
Proof.
  apply (monitorDownload_trace (set_running a_fresh true) "2089b05ecca3d829"
           (Some CbReturn)).
  simpl. lia.
Defined.

Lemma monitor_iter_observer (a : Aria2) (w : World) (gid : string)
      (f : DownloadCallback) (ev : monEvent) :
  observes f ->
  fst (fst (monitor_iter a w gid (Some f) ev)) = fst (fst (monitor_iter a w gid None ev)) /\
  snd (monitor_iter a w gid (Some f) ev) = snd (monitor_iter a w gid None ev).
Proof.
  intros Hf. destruct ev as [now x|]; simpl; [|auto].
  destruct (TellStatus a w now x gid) as [[st|e] w1]; simpl; [|auto].
  rewrite Hf. auto.
Qed.

(** X13. A callback that only looks at the status and returns has no
    influence on the loop: the result, the requests made and the turns left
    are those of a run without callback. *)
Theorem monitorDownload_observer (a : Aria2) (gid : string)
        (f : DownloadCallback) (evs : list monEvent) :
  observes f ->
  forall w,
    outcome (monitorDownload a w gid (Some f) evs)
    = outcome (monitorDownload a w gid None evs) /\
    world_after (monitorDownload a w gid (Some f) evs)
    = world_after (monitorDownload a w gid None evs) /\
    pending (monitorDownload a w gid (Some f) evs)
    = pending (monitorDownload a w gid None evs).
Proof.
  intros Hf. induction evs as [|ev rest IH]; intros w; simpl; [auto|].
  destruct (monitor_iter_observer a w gid f ev Hf) as [H1 H2].
  destruct (monitor_iter a w gid (Some f) ev) as [[it cbs] w1].
  destruct (monitor_iter a w gid None ev) as [[it' cbs'] w1'].
  simpl in H1, H2. subst it' w1'.
  destruct it as [|r]; simpl; [apply IH|auto].
Qed.

Lemma monitorDownload_observer_witness :
  let a := set_running a_fresh true in
  let evs := [MTick 8 (status_reply (status_of "active" "" "" []) "8");
              MTick 9 (status_reply (status_of "error" "1" "timeout" []) "9")] in
  outcome (monitorDownload a w_fresh "2089b05ecca3d829" (Some CbReturn) evs)
  = outcome (monitorDownload a w_fresh "2089b05ecca3d829" None evs) /\
  world_after (monitorDownload a w_fresh "2089b05ecca3d829" (Some CbReturn) evs)
  = world_after (monitorDownload a w_fresh "2089b05ecca3d829" None evs) /\
  pending (monitorDownload a w_fresh "2089b05ecca3d829" (Some CbReturn) evs)
  = pending (monitorDownload a w_fresh "2089b05ecca3d829" None evs).
Proof.
  apply (monitorDownload_observer (set_running a_fresh true) "2089b05ecca3d829"
           CbReturn).
  intros st. reflexivity.
Defined.

(** X14. When a status query fails (the exchange fails, the engine answers
    with an error object, or the result is not a status), the loop ends on
    that turn with the empty path and that very error; the callback is not
    called on that turn and later turns are never taken. *)
Theorem monitorDownload_poll_failure
        (a : Aria2) (w w1 : World) (gid : string)
        (callback : option DownloadCallback) (pre post : list monEvent)
        (now : Z) (x : exchange) (err : error) :
  let before := monitorDownload a w gid callback pre in
  outcome before = None ->
  TellStatus a (world_after before) now x gid = (inr err, w1) ->
  monitorDownload a w gid callback (pre ++ MTick now x :: post)
  = mkRun (Some (Return "" (Some err))) (callbacks before) w1 post.
Proof.
  intros before Hpre HT.
  rewrite (monitorDownload_app _ _ _ _ _ _ Hpre). fold before.
  cbn zeta. cbn [monitorDownload monitor_iter]. rewrite HT.
  cbn [outcome callbacks world_after pending]. now rewrite app_nil_r.
Qed.

Lemma monitorDownload_poll_failure_witness :
  let a := set_running a_fresh true in
  let refused := DoFails (Foreign "connection refused") in
  monitorDownload a w_fresh "2089b05ecca3d829" None ([] ++ MTick 8 refused :: [MDone])
  = mkRun (Some (Return "" (Some (Wrapf "HTTP请求失败: " (Foreign "connection refused")))))
          []
          (log_request w_fresh (rpcURL a)
             (mkRequest "2.0" "aria2.tellStatus" [PString "2089b05ecca3d829"] (Itoa 8)))
          [MDone].
Proof.
  exact (monitorDownload_poll_failure (set_running a_fresh true) w_fresh _
           "2089b05ecca3d829" None [] [MDone] 8
           (DoFails (Foreign "connection refused")) _ eq_refl eq_refl).
Defined.

(** X26. A callback that panics ends the call with that panic, since the
    loop does not recover: the callback has been called once on that turn,
    later turns are never taken and nothing more is requested. *)
Theorem monitorDownload_callback_panic
        (a : Aria2) (w w1 : World) (gid : string) (f : DownloadCallback)
        (pre post : list monEvent) (now : Z) (x : exchange)
        (status : DownloadStatus) (v : string) :
  let before := monitorDownload a w gid (Some f) pre in
  outcome before = None ->
  TellStatus a (world_after before) now x gid = (inl status, w1) ->
  f status = CbPanic v ->
  monitorDownload a w gid (Some f) (pre ++ MTick now x :: post)
  = mkRun (Some (Panic v)) (callbacks before ++ [status]) w1 post.
Proof.
  intros before Hpre HT Hf.
  rewrite (monitorDownload_app _ _ _ _ _ _ Hpre). fold before.
  cbn zeta. cbn [monitorDownload monitor_iter]. rewrite HT.
  cbn [run_callback]. rewrite Hf. reflexivity.
Qed.

Lemma monitorDownload_callback_panic_witness :
  let a := set_running a_fresh true in
  let st := status_of "active" "" "" [] in
  let f : DownloadCallback := fun _ => CbPanic "nil map" in
  monitorDownload a w_fresh "2089b05ecca3d829" (Some f)
                  ([] ++ MTick 8 (status_reply st "8") :: [MDone])
  = mkRun (Some (Panic "nil map")) ([] ++ [st])
          (log_request w_fresh (rpcURL a)
             (mkRequest "2.0" "aria2.tellStatus" [PString "2089b05ecca3d829"] (Itoa 8)))
          [MDone].
Proof.
  exact (monitorDownload_callback_panic (set_running a_fresh true) w_fresh _
           "2089b05ecca3d829" (fun _ => CbPanic "nil map") [] [MDone] 8
           (status_reply (status_of "active" "" "" []) "8") _ "nil map"
           eq_refl eq_refl eq_refl).
Defined.

(** X27. When the status is [complete] with at least one file as the
    [switch] reads it, the call ends on that turn with the path of the
    first file and no error, after the one request of the turn and the call
    of the callback; later turns are never taken.  With no callback, or a
    callback that does not alter the status, that is the status and the
    files the engine reported; otherwise it is the status as the callback
    left it. *)
Theorem monitorDownload_complete_returns_first_file
        (a : Aria2) (w w1 : World) (gid : string)
        (callback : option DownloadCallback) (pre post : list monEvent)
        (now : Z) (x : exchange) (status : DownloadStatus) :
  let before := monitorDownload a w gid callback pre in
  let run := monitorDownload a w gid callback (pre ++ MTick now x :: post) in
  let ended (f : File) :=
    mkRun (Some (Return (Path f) None))
          (callbacks before ++ called callback status) w1 post in
  outcome before = None ->
  TellStatus a (world_after before) now x gid = (inl status, w1) ->
  (passive callback -> Status status = "complete"%string ->
   forall f fs, Files status = f :: fs -> run = ended f) /\
  (forall status',
      run_callback callback status = CbReturn status' ->
      Status status' = "complete"%string ->
      forall f fs, Files status' = f :: fs -> run = ended f).
Proof.
  intros before run ended Hpre HT.
  assert (Hgen : forall status',
             run_callback callback status = CbReturn status' ->
             Status status' = "complete"%string ->
             forall f fs, Files status' = f :: fs -> run = ended f).
  { intros status' HC HS f fs HF. subst run ended.
    rewrite (monitorDownload_app _ _ _ _ _ _ Hpre). fold before.
    cbn zeta. cbn [monitorDownload].
    rewrite (monitor_iter_status _ _ _ _ _ _ _ _ _ HT HC), HS, HF.
    reflexivity. }
  split; [|exact Hgen].
  intros Hp HS f fs HF.
  apply (Hgen status (run_callback_passive _ _ Hp) HS f fs HF).
Qed.

(** A task reported complete with two files, on the second poll of a loop
    whose callback leaves the status alone. *)
Lemma monitorDownload_complete_returns_first_file_witness :
  let a := set_running a_fresh true in
  let gid := "2089b05ecca3d829"%string in
  let callback := Some (CbReturn : DownloadCallback) in
  let active := status_of "active" "" "" [] in
  let complete := status_of "complete" "" ""
                            [mkFile "/tmp/file.bin"; mkFile "/tmp/other.bin"] in
  let pre := [MTick 8 (status_reply active "8")] in
  let before := monitorDownload a w_fresh gid callback pre in
  let w1 := log_request (world_after before) (rpcURL a)
              (mkRequest "2.0" "aria2.tellStatus" [PString gid] (Itoa 9)) in
  let run := monitorDownload a w_fresh gid callback
               (pre ++ MTick 9 (status_reply complete "9") :: [MDone]) in
  run = mkRun (Some (Return "/tmp/file.bin" None))
              (callbacks before ++ called callback complete) w1 [MDone].
Proof.
  exact (proj1 (monitorDownload_complete_returns_first_file
                  (set_running a_fresh true) w_fresh _ "2089b05ecca3d829"
                  (Some (CbReturn : DownloadCallback))
                  [MTick 8 (status_reply (status_of "active" "" "" []) "8")] [MDone] 9
                  (status_reply (status_of "complete" "" ""
                                   [mkFile "/tmp/file.bin"; mkFile "/tmp/other.bin"]) "9")
                  _ eq_refl eq_refl)
               (fun st => eq_refl) eq_refl
               (mkFile "/tmp/file.bin") [mkFile "/tmp/other.bin"] eq_refl).
Defined.

(** ** Download as a whole *)

Lemma Start_requests (a : Aria2) (w : World) (env : StartEnv) :
  requests (snd (Start a w env)) = requests w.
Proof.
  unfold Start. destruct (running a); [reflexivity|].
  destruct (extract env); [|reflexivity].
  simpl. destruct (launch env); [reflexivity|]. simpl.
  now destruct (waitForRPC _ _ _).
Qed.

(** X15. The only thing [Download] does to the supervisor and to
    subprocesses is the one [Start] it performs when the supervisor is not
    running: on a running supervisor it leaves the supervisor as it is and
    only posts requests; otherwise the supervisor is what that [Start] left,
    and everything after it only posts requests.  In particular it never
    stops the engine, whatever the outcome of the download. *)
Theorem Download_effects (a : Aria2) (w : World) (env : DownloadEnv)
        (url dir out : string) (callback : option DownloadCallback) :
  let '(run, a') := Download a w env url dir out callback in
  if running a
  then a' = a /\ only_requests w (world_after run)
  else a' = snd (fst (Start a w (d_start env))) /\
       only_requests (snd (Start a w (d_start env))) (world_after run).
Proof.
  unfold Download, IsRunning.
  assert (H : forall a1 w1 started,
             let '(run, a') :=
               match started with
               | Some err => (mkRun (Some (Return "" (Some err))) [] w1 (d_polls env), a1)
               | None =>
                   match AddUri a1 w1 (d_now env) (d_add env) url dir out with
                   | (inr err, w2) =>
                       (mkRun (Some (Return "" (Some err))) [] w2 (d_polls env), a1)
                   | (inl gid, w2) =>
                       (monitorDownload a1 w2 gid callback (d_polls env), a1)
                   end
               end in
             a' = a1 /\ only_requests w1 (world_after run)).
  { intros a1 w1 [err|]; [split; [reflexivity|apply only_requests_refl]|].
    pose proof (AddUri_only_requests a1 w1 (d_now env) (d_add env) url dir out) as HA.
    destruct (AddUri a1 w1 (d_now env) (d_add env) url dir out) as [[g|err] w2];
      simpl in *; split; auto.
    eapply only_requests_trans; [exact HA|]. apply monitorDownload_only_requests. }
  destruct (running a); simpl negb; cbv iota.
  - apply (H a w None).
  - destruct (Start a w (d_start env)) as [[started a1] w1]. apply H.
Qed.

(** X16. When the supervisor is not running and cannot be started,
    [Download] returns the empty path and the error of [Start] unchanged;
    nothing is submitted or polled: no request is made, the callback is not
    called and no select turn is taken. *)
Theorem Download_start_failure (a a1 : Aria2) (w w1 : World) (env : DownloadEnv)
        (url dir out : string) (callback : option DownloadCallback) (err : error) :
  IsRunning a = false ->
  Start a w (d_start env) = (Some err, a1, w1) ->
  Download a w env url dir out callback
  = (mkRun (Some (Return "" (Some err))) [] w1 (d_polls env), a1) /\
  requests w1 = requests w.
Proof.
  intros HR HS. split.
  - unfold Download. rewrite HR. simpl. now rewrite HS.
  - pose proof (Start_requests a w (d_start env)) as H. now rewrite HS in H.
Qed.

Lemma Download_start_failure_witness :
  let env := mkDownloadEnv env_silent 7 (DoFails (Foreign "unused"))
                           [MTick 8 (DoFails (Foreign "unused"))] in
  Download a_fresh w_fresh env "https://example.test/file.bin" "" "" None
  = (mkRun (Some (Return "" (Some (Wrapf "RPC service failed to start: " errTimeout))))
           [] (snd (Start a_fresh w_fresh env_silent)) (d_polls env),
     snd (fst (Start a_fresh w_fresh env_silent))) /\
  requests (snd (Start a_fresh w_fresh env_silent)) = requests w_fresh.
Proof.
  exact (Download_start_failure a_fresh _ w_fresh _
           (mkDownloadEnv env_silent 7 (DoFails (Foreign "unused"))
                          [MTick 8 (DoFails (Foreign "unused"))])
           "https://example.test/file.bin" "" "" None _ eq_refl eq_refl).
Defined.

Lemma Call_requests (a : Aria2) (w : World) (now : Z) (x : exchange)
      (method : string) (params : list param) :
  requests (snd (Call a w now x method params)) = requests w \/
  requests (snd (Call a w now x method params))
  = requests w ++ [(rpcURL a, mkRequest "2.0" method params (Itoa now))].
Proof.
  unfold Call.
  destruct (Marshal _); [now left|].
  destruct (NewRequest a); [now left|].
  right. destruct x as [e|e|e|r]; try reflexivity.
  destruct (resp_Error r); reflexivity.
Qed.

(** X17. When the submission fails (the call fails, or the result is not a
    task id), [Download] returns the empty path and that error unchanged
    without polling: only the submission was requested, the callback is not
    called and no select turn is taken. *)
Theorem Download_submit_failure (a a1 : Aria2) (w w1 w2 : World)
        (env : DownloadEnv) (url dir out : string)
        (callback : option DownloadCallback) (err : error) :
  (if negb (IsRunning a) then Start a w (d_start env) else (None, a, w))
  = (None, a1, w1) ->
  AddUri a1 w1 (d_now env) (d_add env) url dir out = (inr err, w2) ->
  Download a w env url dir out callback
  = (mkRun (Some (Return "" (Some err))) [] w2 (d_polls env), a1) /\
  (requests w2 = requests w1 \/
   requests w2 = requests w1 ++ [addUri_request a1 url dir out (d_now env)]).
Proof.
  intros HS HA. split.
  - unfold Download. rewrite HS. now rewrite HA.
  - unfold AddUri in HA.
    destruct (Call_requests a1 w1 (d_now env) (d_add env) "aria2.addUri"%string
                [PStrings [url]; POptions [("dir", dir); ("out", out)]%string]) as [H|H];
      destruct (Call _ _ _ _ _ _) as [[m|e] w']; simpl in H;
        try destruct (unmarshal_string m); inversion HA; subst; auto.
Qed.

Lemma Download_submit_failure_witness :
  let a := set_running a_fresh true in
  let env := mkDownloadEnv env_ready 7
               (Envelope (mkResponse "2.0" RawAbsent
                            (Some (mkRPCError 1 "Unauthorized")) "7"))
               [MTick 8 (DoFails (Foreign "unused"))] in
  Download a w_fresh env "https://example.test/file.bin" "" "" None
  = (mkRun (Some (Return "" (Some (errProtocol (mkRPCError 1 "Unauthorized")))))
           []
           (log_request w_fresh (rpcURL a)
              (snd (addUri_request a "https://example.test/file.bin" "" "" 7)))
           (d_polls env), a) /\
  (requests (log_request w_fresh (rpcURL a)
               (snd (addUri_request a "https://example.test/file.bin" "" "" 7)))
   = requests w_fresh \/
   requests (log_request w_fresh (rpcURL a)
               (snd (addUri_request a "https://example.test/file.bin" "" "" 7)))
   = requests w_fresh ++ [addUri_request a "https://example.test/file.bin" "" "" 7]).
Proof.
  exact (Download_submit_failure (set_running a_fresh true) _ w_fresh _ _
           (mkDownloadEnv env_ready 7
              (Envelope (mkResponse "2.0" RawAbsent
                           (Some (mkRPCError 1 "Unauthorized")) "7"))
              [MTick 8 (DoFails (Foreign "unused"))])
           "https://example.test/file.bin" "" "" None _ eq_refl eq_refl).
Defined.

Lemma AddUri_accepted (a : Aria2) (w : World) (now : Z) (r : jsonRPCResponse)
      (uri dir out gid : string) :
  NewRequest a = None ->
  resp_Error r = None ->
  Result r = RawText gid ->
  AddUri a w now (Envelope r) uri dir out
  = (inl gid, log_request w (rpcURL a) (snd (addUri_request a uri dir out now))).
Proof.
  intros HN HE HR. unfold AddUri, Call. simpl. now rewrite HN, HE, HR.
Qed.

(** X18. The wire log of a download on a running supervisor with a valid
    port, once the engine has accepted it with a task id: first the one
    addUri request carrying the URI, the directory and the output name,
    then one tellStatus request per tick taken, each asking for the very
    task id the engine returned. *)
Theorem Download_wire_log (a : Aria2) (w : World) (env : DownloadEnv)
        (url dir out gid : string) (callback : option DownloadCallback)
        (r : jsonRPCResponse) :
  IsRunning a = true ->
  0 <= port a ->
  d_add env = Envelope r ->
  resp_Error r = None ->
  Result r = RawText gid ->
  let run := fst (Download a w env url dir out callback) in
  exists taken,
    d_polls env = taken ++ pending run /\
    requests (world_after run)
    = requests w
      ++ addUri_request a url dir out (d_now env)
      :: map (tellStatus_request a gid) (tick_times taken).
Proof.
  intros HR Hp Hx HE HG run.
  pose proof (AddUri_accepted a w (d_now env) r url dir out gid
                (NewRequest_ok a Hp) HE HG) as HA.
  rewrite <- Hx in HA.
  subst run. rewrite (Download_returns_monitorDownload _ _ _ _ _ _ _ _ _ HR HA).
  cbn [fst].
  destruct (monitorDownload_taken a gid callback (d_polls env) Hp
              (log_request w (rpcURL a) (snd (addUri_request a url dir out (d_now env)))))
    as (taken & Hev & Hrq & _).
  exists taken. split; [exact Hev|].
  rewrite Hrq. rewrite requests_log_request. rewrite <- app_assoc. reflexivity.
Qed.

Lemma Download_wire_log_witness :
  let a := set_running a_fresh true in
  let reply := mkResponse "2.0" (RawText "2089b05ecca3d829") None "7" in
  let env := mkDownloadEnv env_ready 7 (Envelope reply)
               [MTick 8 (status_reply (status_of "active" "" "" []) "8");
                MTick 9 (status_reply (status_of "complete" "" "" [mkFile "/tmp/f"]) "9")] in
  let run := fst (Download a w_fresh env "https://example.test/file.bin" "" "out.bin" None) in
  exists taken,
    d_polls env = taken ++ pending run /\
    requests (world_after run)
    = requests w_fresh
      ++ addUri_request a "https://example.test/file.bin" "" "out.bin" (d_now env)
      :: map (tellStatus_request a "2089b05ecca3d829") (tick_times taken).
Proof.
  apply (Download_wire_log (set_running a_fresh true) w_fresh _
           "https://example.test/file.bin" "" "out.bin" "2089b05ecca3d829" None
           (mkResponse "2.0" (RawText "2089b05ecca3d829") None "7")).
  - reflexivity.
  - simpl. lia.
  - reflexivity.
  - reflexivity.
  - reflexivity.
Defined.

(** ** The engine binary on disk *)

Module EmbedderFacts.

Import Embedder.

Lemma names_eqb_refl (l : list string) : names_eqb l l = true.
Proof. induction l as [|x l IH]; simpl; [reflexivity|]. now rewrite String.eqb_refl. Qed.

Lemma path_eqb_refl (p : path) : path_eqb p p = true.
Proof. unfold path_eqb. now rewrite String.eqb_refl, names_eqb_refl. Qed.

Lemma unsupported_cases (goos : string) :
  supported goos = false ->
  String.eqb goos "windows" = false /\ String.eqb goos "linux" = false /\
  String.eqb goos "darwin" = false.
Proof.
  unfold supported. intros H.
  apply orb_false_iff in H. destruct H as [H H3].
  apply orb_false_iff in H. tauto.
Qed.

Lemma platforms_agree_data (h : Host) (e : Embedded) :
  supported (GOOS h) = true -> exists data, GetEmbeddedBinaryData h e = inl data.
Proof.
  unfold supported, GetEmbeddedBinaryData. intros H.
  destruct (String.eqb (GOOS h) "windows"); [eauto|].
  destruct (String.eqb (GOOS h) "linux"); [eauto|].
  destruct (String.eqb (GOOS h) "darwin"); [eauto|discriminate].
Qed.

(** X19. The platform switches agree: a binary name and the embedded data
    are available exactly on windows, linux and darwin; on any other
    platform the name, the data, the placeholder check and the data
    directory all fail with the unsupported-platform error naming the
    platform, and so does [ExtractBinary], before touching the file
    system. *)
Theorem platforms_agree (h : Host) (e : Embedded) :
  (supported (GOOS h) = true ->
   (exists name, GetEmbeddedBinaryName h = inl name) /\
   (exists data, GetEmbeddedBinaryData h e = inl data)) /\
  (supported (GOOS h) = false ->
   GetEmbeddedBinaryName h = inr (errUnsupported (GOOS h)) /\
   GetEmbeddedBinaryData h e = inr (errUnsupported (GOOS h)) /\
   CheckBinaryExists h e = Some (errUnsupported (GOOS h)) /\
   getAppDataDir h = inr (errUnsupported (GOOS h)) /\
   forall fs env, ExtractBinary h e fs env = (inr (errUnsupported (GOOS h)), fs)).
Proof.
  split.
  - unfold supported, GetEmbeddedBinaryName, GetEmbeddedBinaryData.
    intros H.
    destruct (String.eqb (GOOS h) "windows"); [eauto|].
    destruct (String.eqb (GOOS h) "linux"); [eauto|].
    destruct (String.eqb (GOOS h) "darwin"); [eauto|discriminate].
  - intros H. destruct (unsupported_cases _ H) as (Hw & Hl & Hd).
    unfold CheckBinaryExists, ExtractBinary, GetEmbeddedBinaryName,
      GetEmbeddedBinaryData, getAppDataDir.
    rewrite Hw, Hl, Hd. auto.
Qed.

(** The app directory is a directory called aria2. *)
Lemma getAppDataDir_aria2 (h : Host) (d : path) :
  getAppDataDir h = inl d -> exists base, d = Join base ["aria2"%string].
Proof.
  unfold getAppDataDir.
  match goal with |- context [match ?b with inl _ => _ | inr _ => _ end = _] =>
    destruct b as [base|err] end; [|discriminate].
  intros [= <-]. eauto.
Qed.

Lemma ExtractBinary_exists_after (h : Host) (e : Embedded) (fs fs1 : FS)
      (env : FsEnv) (p : path) :
  ExtractBinary h e fs env = (inl p, fs1) ->
  (is_file fs1 p || is_dir fs1 p) = true.
Proof.
  unfold ExtractBinary.
  destruct (GetEmbeddedBinaryName h) as [name|err]; [|discriminate].
  destruct (getAppDataDir h) as [d|err]; [|discriminate].
  destruct (Stat_ok fs env _) eqn:Hs.
  - intros [= <- <-]. unfold Stat_ok in Hs. now apply andb_true_iff in Hs.
  - destruct (CheckBinaryExists h e); [discriminate|].
    destruct (mkdir env); [|discriminate].
    destruct (GetEmbeddedBinaryData h e) as [data|err]; [|discriminate].
    unfold WriteFile. destruct (write env) as [|err [left|]]; try discriminate.
    intros [= <- <-]. unfold is_file, put. simpl. now rewrite path_eqb_refl.
Qed.

(** X20. Wherever [ExtractBinary] succeeds, the path it returns is the file
    named aria2c.exe on windows and aria2c elsewhere, directly inside the
    directory aria2 of the data directory, and something exists at that
    path afterwards. *)
Theorem ExtractBinary_location (h : Host) (e : Embedded) (fs fs1 : FS)
        (env : FsEnv) (p : path) :
  ExtractBinary h e fs env = (inl p, fs1) ->
  (exists base,
      p = Join base ["aria2"%string;
                     if String.eqb (GOOS h) "windows" then "aria2c.exe"%string
                     else "aria2c"%string]) /\
  (is_file fs1 p || is_dir fs1 p) = true.
Proof.
  intros H. split; [|exact (ExtractBinary_exists_after _ _ _ _ _ _ H)].
  revert H. unfold ExtractBinary.
  destruct (GetEmbeddedBinaryName h) as [name|err] eqn:Hn; [|discriminate].
  destruct (getAppDataDir h) as [d|err] eqn:Hd; [|discriminate].
  assert (Hname : name = if String.eqb (GOOS h) "windows" then "aria2c.exe"%string
                         else "aria2c"%string).
  { unfold GetEmbeddedBinaryName in Hn.
    destruct (String.eqb (GOOS h) "windows"); [now inversion Hn|].
    destruct (String.eqb (GOOS h) "linux"); [now inversion Hn|].
    destruct (String.eqb (GOOS h) "darwin"); [now inversion Hn|discriminate]. }
  destruct (getAppDataDir_aria2 h d Hd) as [base ->].
  intros H.
  assert (Hp : p = Join (Join base ["aria2"%string]) [name]).
  { destruct (Stat_ok fs env _); [now inversion H|].
    destruct (CheckBinaryExists h e); [discriminate|].
    destruct (mkdir env); [|discriminate].
    destruct (GetEmbeddedBinaryData h e) as [data|err]; [|discriminate].
    destruct (WriteFile _ env _ data) as [[err|] fs2]; [discriminate|].
    now inversion H. }
  exists base. rewrite Hp, <- Hname. unfold Join. simpl. now rewrite <- app_assoc.
Qed.

Lemma ExtractBinary_location_witness :
  (exists base,
      Join (dir "/home/u") [".local"; "share"; "aria2"; "aria2c"]%string
      = Join base ["aria2"%string;
                   if String.eqb (GOOS linux_host) "windows" then "aria2c.exe"%string
                   else "aria2c"%string]) /\
  (is_file (snd (ExtractBinary linux_host some_binaries empty_fs calm))
           (Join (dir "/home/u") [".local"; "share"; "aria2"; "aria2c"]%string)
   || is_dir (snd (ExtractBinary linux_host some_binaries empty_fs calm))
             (Join (dir "/home/u") [".local"; "share"; "aria2"; "aria2c"]%string))
  = true.
Proof.
  exact (ExtractBinary_location linux_host some_binaries empty_fs _ calm _ eq_refl).
Defined.

(** X21. Extraction is idempotent: after a successful [ExtractBinary], a
    later call whose stat works returns the same path and leaves the file
    system untouched, whatever binaries are embedded: the file on disk is
    taken as it is. *)
Theorem ExtractBinary_idempotent (h : Host) (e e' : Embedded) (fs fs1 : FS)
        (env env' : FsEnv) (p : path) :
  ExtractBinary h e fs env = (inl p, fs1) ->
  stat_fault env' = false ->
  ExtractBinary h e' fs1 env' = (inl p, fs1).
Proof.
  intros H Hs.
  pose proof (ExtractBinary_exists_after _ _ _ _ _ _ H) as Hex.
  unfold ExtractBinary in *.
  destruct (GetEmbeddedBinaryName h) as [name|err]; [|discriminate].
  destruct (getAppDataDir h) as [d|err]; [|discriminate].
  assert (Hp : p = Join d [name]).
  { destruct (Stat_ok fs env _); [now inversion H|].
    destruct (CheckBinaryExists h e); [discriminate|].
    destruct (mkdir env); [|discriminate].
    destruct (GetEmbeddedBinaryData h e) as [data|err]; [|discriminate].
    destruct (WriteFile _ env _ data) as [[err|] fs2]; [discriminate|].
    now inversion H. }
  subst p. unfold Stat_ok. now rewrite Hex, Hs.
Qed.

Lemma ExtractBinary_idempotent_witness :
  ExtractBinary linux_host (mkEmbedded [] [] [])
                (snd (ExtractBinary linux_host some_binaries empty_fs calm))
                (mkFsEnv false (MkdirFails (Foreign "read-only file system") 0) WriteOk)
  = (inl (Join (dir "/home/u") [".local"; "share"; "aria2"; "aria2c"]%string),
     snd (ExtractBinary linux_host some_binaries empty_fs calm)).
Proof.
  exact (ExtractBinary_idempotent linux_host some_binaries (mkEmbedded [] [] [])
           empty_fs _ calm
           (mkFsEnv false (MkdirFails (Foreign "read-only file system") 0) WriteOk)
           _ eq_refl eq_refl).
Defined.

(** X22. When nothing is found at the binary's path and [ExtractBinary]
    succeeds, the file now holds the bytes embedded for the platform, more
    than two of them, and its directory exists. *)
Theorem ExtractBinary_writes_embedded (h : Host) (e : Embedded) (fs fs1 : FS)
        (env : FsEnv) (p : path) :
  ExtractBinary h e fs env = (inl p, fs1) ->
  Stat_ok fs env p = false ->
  exists d name data,
    getAppDataDir h = inl d /\
    p = Join d [name] /\
    GetEmbeddedBinaryData h e = inl data /\
    (2 < List.length data)%nat /\
    read fs1 p = Some data /\
    is_dir fs1 d = true.
Proof.
  unfold ExtractBinary.
  destruct (GetEmbeddedBinaryName h) as [name|err]; [|discriminate].
  destruct (getAppDataDir h) as [d|err]; [|discriminate].
  destruct (Stat_ok fs env (Join d [name])) eqn:Hs.
  - intros [= <- <-] Hno. congruence.
  - unfold CheckBinaryExists.
    destruct (GetEmbeddedBinaryData h e) as [data|err]; [|discriminate].
    destruct (List.length data <=? 2)%nat eqn:Hlen; [discriminate|].
    destruct (mkdir env); [|discriminate].
    unfold WriteFile. destruct (write env) as [|err [left|]]; try discriminate.
    intros [= <- <-] _. exists d, name, data.
    repeat split; auto.
    + apply Nat.leb_gt in Hlen. exact Hlen.
    + unfold read, put. simpl. now rewrite path_eqb_refl.
    + unfold is_dir, MkdirAll, put, ancestors. cbn [dirs].
      apply existsb_exists. exists d. split; [|apply path_eqb_refl].
      apply in_or_app. left. apply in_map_iff.
      exists (List.length (names d)). split.
      * destruct d as [r ns]. simpl. now rewrite firstn_all.
      * apply in_seq. lia.
Qed.

Lemma ExtractBinary_writes_embedded_witness :
  exists d name data,
    getAppDataDir linux_host = inl d /\
    Join (dir "/home/u") [".local"; "share"; "aria2"; "aria2c"]%string = Join d [name] /\
    GetEmbeddedBinaryData linux_host some_binaries = inl data /\
    (2 < List.length data)%nat /\
    read (snd (ExtractBinary linux_host some_binaries empty_fs calm))
         (Join (dir "/home/u") [".local"; "share"; "aria2"; "aria2c"]%string)
    = Some data /\
    is_dir (snd (ExtractBinary linux_host some_binaries empty_fs calm)) d = true.
Proof.
  exact (ExtractBinary_writes_embedded linux_host some_binaries empty_fs _ calm _
           eq_refl eq_refl).
Defined.

(** X23. A placeholder is never written to disk: when the data embedded
    for the platform has two bytes or fewer, [ExtractBinary] leaves the
    file system as it is, creating not even the directory; it returns a
    path only if something was already there, and otherwise fails. *)
Theorem ExtractBinary_placeholder (h : Host) (e : Embedded) (fs : FS)
        (env : FsEnv) (data : list Byte.byte) :
  GetEmbeddedBinaryData h e = inl data ->
  (List.length data <= 2)%nat ->
  snd (ExtractBinary h e fs env) = fs /\
  match fst (ExtractBinary h e fs env) with
  | inl p => Stat_ok fs env p = true
  | inr err =>
      err = errPlaceholder \/
      exists cause, UserHomeDir h = inr cause /\
                    err = Wrapf "无法获取应用程序数据目录: " cause
  end.
Proof.
  intros Hd Hlen. unfold ExtractBinary.
  assert (Hsup : exists name, GetEmbeddedBinaryName h = inl name).
  { unfold GetEmbeddedBinaryData in Hd. unfold GetEmbeddedBinaryName.
    destruct (String.eqb (GOOS h) "windows"); [eauto|].
    destruct (String.eqb (GOOS h) "linux"); [eauto|].
    destruct (String.eqb (GOOS h) "darwin"); [eauto|discriminate]. }
  destruct Hsup as [name ->].
  destruct (getAppDataDir h) as [d|err] eqn:Hdir.
  - destruct (Stat_ok fs env (Join d [name])) eqn:Hs; [auto|].
    unfold CheckBinaryExists. rewrite Hd.
    apply Nat.leb_le in Hlen. rewrite Hlen. simpl. auto.
  - simpl. split; [reflexivity|]. right. exists err. split; [|reflexivity].
    unfold getAppDataDir, GetEmbeddedBinaryData in *.
    destruct (String.eqb (GOOS h) "windows").
    + destruct (String.eqb (LOCALAPPDATA h) ""); [|discriminate].
      destruct (UserHomeDir h); [discriminate|]. now inversion Hdir.
    + rewrite String.eqb_sym in Hdir. rewrite String.eqb_sym in Hdir.
      destruct (String.eqb (GOOS h) "darwin") eqn:Hdar.
      * destruct (UserHomeDir h); [discriminate|]. now inversion Hdir.
      * destruct (String.eqb (GOOS h) "linux"); [|discriminate].
        destruct (UserHomeDir h); [|now inversion Hdir].
        destruct (negb _); discriminate.
Qed.

Lemma ExtractBinary_placeholder_witness :
  let e := mkEmbedded [] [Byte.x0a] [] in
  snd (ExtractBinary linux_host e empty_fs calm) = empty_fs /\
  (errPlaceholder = errPlaceholder \/
   exists cause, UserHomeDir linux_host = inr cause /\
                 errPlaceholder = Wrapf "无法获取应用程序数据目录: " cause).
Proof.
  exact (ExtractBinary_placeholder linux_host (mkEmbedded [] [Byte.x0a] [])
           empty_fs calm [Byte.x0a] eq_refl (le_S _ _ (le_n 1))).
Defined.

Lemma name_supported (h : Host) :
  (exists name, GetEmbeddedBinaryName h = inl name) -> supported (GOOS h) = true.
Proof.
  unfold GetEmbeddedBinaryName, supported. intros [name H].
  destruct (String.eqb (GOOS h) "windows"); [reflexivity|].
  destruct (String.eqb (GOOS h) "linux"); [reflexivity|].
  destruct (String.eqb (GOOS h) "darwin"); [reflexivity|discriminate].
Qed.

Lemma getAppDataDir_failure (h : Host) (err : error) :
  supported (GOOS h) = true ->
  getAppDataDir h = inr err -> UserHomeDir h = inr err.
Proof.
  unfold supported, getAppDataDir. intros Hs.
  destruct (String.eqb (GOOS h) "windows").
  - destruct (String.eqb (LOCALAPPDATA h) ""); [|discriminate].
    destruct (UserHomeDir h); [discriminate|]. now intros [= ->].
  - destruct (String.eqb (GOOS h) "darwin").
    + destruct (UserHomeDir h); [discriminate|]. now intros [= ->].
    + destruct (String.eqb (GOOS h) "linux"); [|discriminate].
      destruct (UserHomeDir h); [|now intros [= ->]].
      destruct (negb _); discriminate.
Qed.

Lemma names_eqb_length (l m : list string) :
  names_eqb l m = true -> List.length l = List.length m.
Proof.
  revert m. induction l as [|x l IH]; intros [|y m]; simpl; try discriminate; auto.
  intros H. apply andb_true_iff in H. destruct H as [_ H]. f_equal. now apply IH.
Qed.

Lemma In_firstn_seq (k : nat) :
  forall (start len n : nat),
    In n (firstn k (seq start len)) -> (start <= n < start + k)%nat.
Proof.
  induction k as [|k IH]; intros start len n H; simpl in H; [contradiction|].
  destruct len as [|len]; simpl in H; [contradiction|].
  destruct H as [<-|H]; [lia|]. apply IH in H. lia.
Qed.

(** A failed [MkdirAll] does not make the directory it was asked for. *)
Lemma MkdirAll_partial_not_leaf (fs : FS) (d : path) (made : nat) :
  is_dir (MkdirAll_partial fs d made) d = is_dir fs d.
Proof.
  unfold is_dir, MkdirAll_partial. cbn [dirs]. rewrite existsb_app.
  match goal with |- ?b || _ = _ => destruct b eqn:Hb end; [|reflexivity].
  exfalso. apply existsb_exists in Hb. destruct Hb as (q & Hin & Heq).
  unfold ancestors in Hin. rewrite firstn_map in Hin.
  apply in_map_iff in Hin. destruct Hin as (n & <- & Hn).
  apply In_firstn_seq in Hn.
  unfold path_eqb in Heq. cbn [root names] in Heq.
  apply andb_true_iff in Heq. destruct Heq as [_ Heq].
  apply names_eqb_length in Heq. rewrite length_firstn in Heq. lia.
Qed.

(** X24. The failures of [ExtractBinary] are these and no others: the
    platform is not supported; the home directory cannot be determined
    (wrapped as a data-directory failure); the embedded binary is a
    placeholder; the directory cannot be created; the file cannot be
    written.  In the first three cases the file system is left as it was; a
    failed creation of the directory touches no file, though it may leave
    directories above the target behind.  The failure of fetching the
    embedded data after the checks, for which the code has a branch, never
    occurs. *)
Theorem ExtractBinary_failures (h : Host) (e : Embedded) (fs fs1 : FS)
        (env : FsEnv) (err : error) :
  ExtractBinary h e fs env = (inr err, fs1) ->
  (supported (GOOS h) = false /\ err = errUnsupported (GOOS h) /\ fs1 = fs) \/
  (exists cause, UserHomeDir h = inr cause /\
                 err = Wrapf "无法获取应用程序数据目录: " cause /\ fs1 = fs) \/
  (err = errPlaceholder /\ fs1 = fs) \/
  (exists cause made d,
      mkdir env = MkdirFails cause made /\
      err = Wrapf "创建应用程序目录失败: " cause /\
      getAppDataDir h = inl d /\
      fs1 = MkdirAll_partial fs d made /\
      files fs1 = files fs /\
      is_dir fs1 d = is_dir fs d) \/
  (exists cause left, write env = WriteFails cause left /\
                      err = Wrapf "写入二进制文件失败: " cause).
Proof.
  unfold ExtractBinary.
  destruct (GetEmbeddedBinaryName h) as [name|err0] eqn:Hn.
  - assert (Hs : supported (GOOS h) = true) by (apply name_supported; eauto).
    destruct (getAppDataDir h) as [d|err0] eqn:Hd.
    + destruct (Stat_ok fs env _); [discriminate|].
      unfold CheckBinaryExists.
      destruct (platforms_agree_data h e Hs) as [data ->].
      destruct (List.length data <=? 2)%nat.
      * intros [= <- <-]. right. right. left. auto.
      * destruct (mkdir env) as [|cause made] eqn:Hm.
        { unfold WriteFile. destruct (write env) as [|cause [left|]] eqn:Hw;
            try discriminate; intros [= <- <-]; right; right; right; right; eauto. }
        intros [= <- <-]. right. right. right. left.
        exists cause, made, d. repeat split.
        apply MkdirAll_partial_not_leaf.
    + intros [= <- <-]. right. left. exists err0.
      split; [|auto]. now apply getAppDataDir_failure.
  - intros [= <- <-]. left.
    unfold GetEmbeddedBinaryName in Hn. unfold supported.
    destruct (String.eqb (GOOS h) "windows"); [discriminate|].
    destruct (String.eqb (GOOS h) "linux"); [discriminate|].
    destruct (String.eqb (GOOS h) "darwin"); [discriminate|].
    inversion Hn. auto.
Qed.

Lemma ExtractBinary_failures_witness :
  let env := mkFsEnv false (MkdirFails (Foreign "permission denied") 3) WriteOk in
  let err := Wrapf "创建应用程序目录失败: " (Foreign "permission denied") in
  let fs1 := snd (ExtractBinary linux_host some_binaries empty_fs env) in
  (supported (GOOS linux_host) = false /\ err = errUnsupported (GOOS linux_host) /\
   fs1 = empty_fs) \/
  (exists cause, UserHomeDir linux_host = inr cause /\
                 err = Wrapf "无法获取应用程序数据目录: " cause /\ fs1 = empty_fs) \/
  (err = errPlaceholder /\ fs1 = empty_fs) \/
  (exists cause made d,
      mkdir env = MkdirFails cause made /\
      err = Wrapf "创建应用程序目录失败: " cause /\
      getAppDataDir linux_host = inl d /\
      fs1 = MkdirAll_partial empty_fs d made /\
      files fs1 = files empty_fs /\
      is_dir fs1 d = is_dir empty_fs d) \/
  (exists cause left, write env = WriteFails cause left /\
                      err = Wrapf "写入二进制文件失败: " cause).
Proof.
  exact (ExtractBinary_failures linux_host some_binaries empty_fs _
           (mkFsEnv false (MkdirFails (Foreign "permission denied") 3) WriteOk)
           _ eq_refl).
Defined.

(** X25. Which directory the binary goes to, and what it takes to know it:
    on windows a set LOCALAPPDATA decides alone, the home directory is not
    asked for; on linux a set XDG_DATA_HOME decides where, but the home
    directory is asked for first and its failure is the failure of the
    call, XDG_DATA_HOME or not. *)
Theorem getAppDataDir_home (h : Host) :
  (GOOS h = "windows"%string -> LOCALAPPDATA h <> ""%string ->
   getAppDataDir h = inl (Join (dir (LOCALAPPDATA h)) ["aria2"%string])) /\
  (GOOS h = "linux"%string ->
   forall cause, UserHomeDir h = inr cause -> getAppDataDir h = inr cause) /\
  (GOOS h = "linux"%string ->
   forall home, UserHomeDir h = inl home -> XDG_DATA_HOME h <> ""%string ->
                getAppDataDir h = inl (Join (dir (XDG_DATA_HOME h)) ["aria2"%string])).
Proof.
  unfold getAppDataDir. split; [|split].
  - intros -> Hl. apply String.eqb_neq in Hl. simpl. now rewrite Hl.
  - intros -> cause ->. reflexivity.
  - intros -> home -> Hx. apply String.eqb_neq in Hx. simpl. now rewrite Hx.
Qed.

Lemma getAppDataDir_home_witness :
  let win := mkHost "windows" "C:\Users\u\AppData\Local" ""
                    (inr (Foreign "%userprofile% is not defined")) in
  let homeless := mkHost "linux" "" "/data" (inr (Foreign "$HOME is not defined")) in
  let lin := mkHost "linux" "" "/data" (inl "/home/u"%string) in
  getAppDataDir win = inl (Join (dir (LOCALAPPDATA win)) ["aria2"%string]) /\
  getAppDataDir homeless = inr (Foreign "$HOME is not defined") /\
  getAppDataDir lin = inl (Join (dir (XDG_DATA_HOME lin)) ["aria2"%string]).
Proof.
  intros win homeless lin. split; [|split].
  - apply (proj1 (getAppDataDir_home win)); [reflexivity|discriminate].
  - apply (proj1 (proj2 (getAppDataDir_home homeless)) eq_refl). reflexivity.
  - apply (proj2 (proj2 (getAppDataDir_home lin)) eq_refl "/home/u"%string);
      [reflexivity|discriminate].
Defined.

End EmbedderFacts.
